(** * check-untagged-go-deps: pseudo-version detection and comparison

    A shallow embedding of [main.go].  Go strings are byte sequences and are
    modelled by [string] (a list of 8-bit [ascii]); the two regular
    expressions of the program are kept as syntax trees and run by a matcher
    for the fragment of RE2 syntax they use; a Go result pair [(T, error)] is
    a pair [T * option error], with the zero value written out as the code
    does; the external [go list] tool is a transition on an abstract world. *)

From Stdlib Require Import Strings.String Strings.Ascii Lists.List Bool.Bool
  Arith.PeanoNat NArith.NArith micromega.Lia.
Import ListNotations.

Local Open Scope list_scope.
Local Open Scope string_scope.

(** ** Byte strings *)

Module Bytes.

(** [forallb] over the bytes of a string. *)
Fixpoint all (p : ascii -> bool) (s : string) : bool :=
  match s with
  | EmptyString => true
  | String c s' => p c && all p s'
  end.

(** [strings.Contains(s, substr)]: [substr] occurs somewhere within [s]. *)
Fixpoint Contains (s substr : string) : bool :=
  if String.prefix substr s then true
  else match s with
       | EmptyString => false
       | String _ s' => Contains s' substr
       end.

(** Go's [>=] on strings: bytewise lexicographic order. *)
Definition geb (a b : string) : bool := String.leb b a.

End Bytes.

(** ** The regular expressions of the program

    Only the constructs that occur in [pseudoVersionRe] and [timestampRe]:
    a bracketed class of byte ranges, a literal, concatenation, the counted
    repetition [r{n}] and [$], which without the multi-line flag holds at the
    end of the text only.  The classes are ASCII, so a byte above 127 (part of
    a multi-byte rune, or an invalid encoding) never matches and matching by
    bytes agrees with matching by runes. *)

Module Regexp.

Inductive regexp : Type :=
| CharClass (ranges : list (ascii * ascii))
| Literal (c : ascii)
| Concat (r1 r2 : regexp)
| Repeat (r : regexp) (n : nat)
| EndText.

Definition inClass (ranges : list (ascii * ascii)) (c : ascii) : bool :=
  existsb (fun '(lo, hi) => Ascii.leb lo c && Ascii.leb c hi) ranges.

(** One byte that satisfies [p]. *)
Definition oneByte (p : ascii -> bool) (s : string) : option (string * string) :=
  match s with
  | String c s' => if p c then Some (String c "", s') else None
  | EmptyString => None
  end.

(** [n] successive matches of [f], the matched texts concatenated. *)
Fixpoint repeatMatch (f : string -> option (string * string)) (n : nat)
    (s : string) : option (string * string) :=
  match n with
  | O => Some ("", s)
  | S n' =>
      match f s with
      | Some (m1, s1) =>
          match repeatMatch f n' s1 with
          | Some (m2, s2) => Some (m1 ++ m2, s2)
          | None => None
          end
      | None => None
      end
  end.

(** A match of [r] starting at the head of [s]: the matched text and the rest
    of the input.  In this fragment a match at a given position is unique. *)
Fixpoint matchHere (r : regexp) (s : string) : option (string * string) :=
  match r with
  | CharClass ranges => oneByte (inClass ranges) s
  | Literal c0 => oneByte (fun c => Ascii.eqb c c0) s
  | Concat r1 r2 =>
      match matchHere r1 s with
      | Some (m1, s1) =>
          match matchHere r2 s1 with
          | Some (m2, s2) => Some (m1 ++ m2, s2)
          | None => None
          end
      | None => None
      end
  | Repeat r' n => repeatMatch (matchHere r') n s
  | EndText =>
      match s with
      | EmptyString => Some ("", "")
      | String _ _ => None
      end
  end.

(** Go's [MatchString] method: is there a match starting anywhere in [s]. *)
Fixpoint MatchString (r : regexp) (s : string) : bool :=
  match matchHere r s with
  | Some _ => true
  | None =>
      match s with
      | EmptyString => false
      | String _ s' => MatchString r s'
      end
  end.

(** Go's [FindString] method: the text of the leftmost match, the empty string
    when there is none. *)
Fixpoint FindString (r : regexp) (s : string) : string :=
  match matchHere r s with
  | Some (m, _) => m
  | None =>
      match s with
      | EmptyString => ""
      | String _ s' => FindString r s'
      end
  end.

End Regexp.

Import Regexp.

(** ** Errors

    An [error] value is known through its [Error()] text and, for one built
    with the verb [%w], the error it wraps. *)

Inductive error : Type :=
| errorString (text : string)
| wrapError (text : string) (err : error).

Definition Error (e : error) : string :=
  match e with
  | errorString text => text
  | wrapError text _ => text
  end.

(** [errors.New]. *)
Definition errors_New (text : string) : error := errorString text.

(** ** Data of [main.go] *)

(** A [require] line as [modfile] hands it over: [req.Mod.Path],
    [req.Mod.Version], [req.Indirect]. *)
Record Require : Type := mkRequire {
  Mod_Path : string;
  Mod_Version : string;
  Indirect : bool
}.

(** [dependency], with its fields [module] and [version]. *)
Record dependency : Type := mkDependency {
  dep_module : string;
  dep_version : string
}.

(** [update], with its fields [module], [current] and [latest]. *)
Record update : Type := mkUpdate {
  upd_module : string;
  upd_current : string;
  upd_latest : string
}.

(** [[0-9]{14}-[a-f0-9]{12}$] *)
Definition pseudoVersionRe : regexp :=
  Concat (Repeat (CharClass [("0", "9")]%char) 14)
    (Concat (Literal "-"%char)
       (Concat (Repeat (CharClass [("a", "f"); ("0", "9")]%char) 12)
          EndText)).

(** [[0-9]{14}] *)
Definition timestampRe : regexp :=
  Repeat (CharClass [("0", "9")]%char) 14.

(** Decimal digits and lowercase hexadecimal digits, written out character
    by character. *)
Definition decimal_digit (c : ascii) : bool :=
  existsb (Ascii.eqb c) (list_ascii_of_string "0123456789").

Definition lower_hex_digit (c : ascii) : bool :=
  existsb (Ascii.eqb c) (list_ascii_of_string "0123456789abcdef").

(** [s] is a run of exactly [n] decimal digits. *)
Definition digit_run (n : nat) (s : string) : Prop :=
  String.length s = n /\ Bytes.all decimal_digit s = true.

Definition hex_run (n : nat) (s : string) : Prop :=
  String.length s = n /\ Bytes.all lower_hex_digit s = true.

(** The number a string of decimal digits denotes. *)
Definition digitValue (c : ascii) : N := N_of_ascii c - 48.

Fixpoint decimalValue (s : string) : N :=
  match s with
  | EmptyString => 0
  | String c s' =>
      digitValue c * 10 ^ N.of_nat (String.length s') + decimalValue s'
  end.

(** [s] contains 14 consecutive decimal digits somewhere. *)
Definition has_timestamp (s : string) : Prop :=
  exists p ts q, s = p ++ ts ++ q /\ digit_run 14 ts.

(** [s] ends with 14 digits, a hyphen and 12 lowercase hex characters. *)
Definition pseudo_version_shape (s : string) : Prop :=
  exists p ts h, s = p ++ ts ++ "-" ++ h /\ digit_run 14 ts /\ hex_run 12 h.

(** What the scanner is said to do with one entry: it is emitted when its
    version is classified as a pseudo-version and it is not an indirect entry
    while [includeIndirect] is off; the dependency carries its path and
    version. *)
Definition emitted (includeIndirect : bool) (req : Require) : bool :=
  MatchString pseudoVersionRe (Mod_Version req)
  && negb (Indirect req && negb includeIndirect).

Definition asDependency (req : Require) : dependency :=
  mkDependency (Mod_Path req) (Mod_Version req).

(** What the aggregator is said to report for a dependency and its resolved
    latest version: an update when the two version strings differ. *)
Definition differs (pair : dependency * string) : bool :=
  negb (String.eqb (dep_version (fst pair)) (snd pair)).

Definition asUpdate (pair : dependency * string) : update :=
  mkUpdate (dep_module (fst pair)) (dep_version (fst pair)) (snd pair).

(** ** Timestamps: [extractTimestamp] and [newerVersion] *)

Section Timestamps.

(** [strconv.Quote], which the verb [%q] applies to a string. *)
Variable Quote : string -> string.

(** [fmt.Errorf("no timestamp found in version %q", version)] *)
Definition noTimestampError (version : string) : error :=
  errorString ("no timestamp found in version " ++ Quote version).

Definition extractTimestamp (version : string) : string * option error :=
  let match_ := FindString timestampRe version in
  if String.eqb match_ "" then ("", Some (noTimestampError version))
  else (match_, None).

Definition newerVersion (a b : string) : string * option error :=
  let '(tsA, err) := extractTimestamp a in
  match err with
  | Some e => ("", Some e)
  | None =>
      let '(tsB, err) := extractTimestamp b in
      match err with
      | Some e => ("", Some e)
      | None => if Bytes.geb tsA tsB then (a, None) else (b, None)
      end
  end.

End Timestamps.

(** ** The program over its environment *)

(** What [cmd.Output()] gives back: the standard output of the command, an
    [*exec.ExitError] with the captured standard error, or another error. *)
Inductive execOutcome : Type :=
| Output (stdout : string)
| ExitError (stderr : string)
| ExecFailure (err : error).

(** [moduleInfo]: the JSON object printed by [go list -m -json]. *)
Record moduleInfo : Type := mkModuleInfo {
  Path : string;
  Version : string
}.

Section Program.

(** The library and operating-system calls of [main.go].  [World] is
    everything outside the process: the module proxy and the file system. *)
Variable Quote : string -> string.
Variable TrimSpace : string -> string.
Variable World : Type.
Variable goList : string -> World -> execOutcome * World.
Variable json_Unmarshal : string -> moduleInfo * option error.
Variable filepath_Clean : string -> string.
Variable os_ReadFile : string -> World -> (string * option error) * World.
Variable modfile_Parse : string -> string -> list Require * option error.

(** The state threaded through a run: the world, and a record of the
    [(modulePath, branch)] pairs handed to [queryModuleVersion] so far. *)
Record State : Type := mkState {
  world : World;
  queried : list (string * string)
}.

Definition M (A : Type) : Type := State -> A * State.

Definition ret {A : Type} (a : A) : M A := fun st => (a, st).

Definition bind {A B : Type} (c : M A) (k : A -> M B) : M B :=
  fun st => let '(a, st') := c st in k a st'.

Notation "x <- c ;; k" := (bind c (fun x => k))
  (at level 61, c at next level, right associativity).
Notation "' p <- c ;; k" := (bind c (fun x => let 'p := x in k))
  (at level 61, p pattern, c at next level, right associativity).

Definition queryModuleVersion (modulePath branch : string)
  : M (string * option error) :=
  fun st =>
    let '(out, w) := goList (modulePath ++ "@" ++ branch) (world st) in
    let st' := mkState w (queried st ++ [(modulePath, branch)])%list in
    match out with
    | ExitError stderr => (("", Some (errors_New (TrimSpace stderr))), st')
    | ExecFailure err =>
        (("", Some (wrapError ("running go list: " ++ Error err) err)), st')
    | Output output =>
        let '(info, err) := json_Unmarshal output in
        match err with
        | Some e =>
            (("", Some (wrapError ("parsing module info: " ++ Error e) e)), st')
        | None => ((Version info, None), st')
        end
    end.

(** The loop of [getLatestVersion] over the remaining [branches], with the
    [versions] collected so far; [Some err] is the early [return "", err]. *)
Fixpoint probeBranches (modulePath : string) (branches versions : list string)
  : M (list string * option error) :=
  match branches with
  | [] => ret (versions, None)
  | branch :: rest =>
      '(version, err) <- queryModuleVersion modulePath branch ;;
      match err with
      | Some e =>
          if Bytes.Contains (Error e) "unknown revision"
          then probeBranches modulePath rest versions
          else ret (versions, Some e)
      | None => probeBranches modulePath rest (versions ++ [version])%list
      end
  end.

(** [versions[i]] is read only when [i] is below [len(versions)]. *)
Definition getLatestVersion (modulePath : string) : M (string * option error) :=
  let branches := ["main"; "master"] in
  '(versions, abort) <- probeBranches modulePath branches [] ;;
  match abort with
  | Some e => ret ("", Some e)
  | None =>
      if Nat.eqb (List.length versions) 0
      then ret ("", Some (errors_New "neither main nor master branch found"))
      else if Nat.eqb (List.length versions) 2
      then ret (newerVersion Quote (nth 0 versions "") (nth 1 versions ""))
      else ret (nth 0 versions "", None)
  end.

(** The loop of [checkForUpdates] with the [updates] appended so far. *)
Fixpoint checkEach (deps : list dependency) (updates : list update)
  : M (list update * option error) :=
  match deps with
  | [] => ret (updates, None)
  | dep :: rest =>
      '(latest, err) <- getLatestVersion (dep_module dep) ;;
      match err with
      | Some e =>
          ret ([], Some (wrapError
                 ("checking " ++ dep_module dep ++ ": " ++ Error e) e))
      | None =>
          if negb (String.eqb (dep_version dep) latest)
          then checkEach rest
                 (updates ++ [mkUpdate (dep_module dep) (dep_version dep) latest])%list
          else checkEach rest updates
      end
  end.

Definition checkForUpdates (deps : list dependency)
  : M (list update * option error) :=
  checkEach deps [].

(** The resolutions of a list of modules one after the other, each result
    kept: what [checkForUpdates] would see if it never stopped early. *)
Fixpoint latestVersions (modules : list string)
  : M (list (string * option error)) :=
  match modules with
  | [] => ret []
  | modulePath :: rest =>
      r <- getLatestVersion modulePath ;;
      rs <- latestVersions rest ;;
      ret (r :: rs)
  end.

(** The loop of [findPseudoVersionedDeps] over [f.Require]. *)
Fixpoint scanRequires (reqs : list Require) (includeIndirect : bool)
    (deps : list dependency) : list dependency :=
  match reqs with
  | [] => deps
  | req :: rest =>
      if negb (MatchString pseudoVersionRe (Mod_Version req))
      then scanRequires rest includeIndirect deps
      else if Indirect req && negb includeIndirect
      then scanRequires rest includeIndirect deps
      else scanRequires rest includeIndirect
             (deps ++ [mkDependency (Mod_Path req) (Mod_Version req)])%list
  end.

Definition findPseudoVersionedDeps (gomodPath : string) (includeIndirect : bool)
  : M (list dependency * option error) :=
  fun st =>
    let '((data, err), w) := os_ReadFile (filepath_Clean gomodPath) (world st) in
    let st' := mkState w (queried st) in
    match err with
    | Some e => (([], Some (wrapError ("reading file: " ++ Error e) e)), st')
    | None =>
        let '(requires, err) := modfile_Parse gomodPath data in
        match err with
        | Some e => (([], Some (wrapError ("parsing go.mod: " ++ Error e) e)), st')
        | None => ((scanRequires requires includeIndirect [], None), st')
        end
    end.

Definition checkGoMod (gomodPath : string) (includeIndirect : bool)
  : M (list dependency * list update * option error) :=
  '(deps, err) <- findPseudoVersionedDeps gomodPath includeIndirect ;;
  match err with
  | Some e =>
      ret ([], [], Some (wrapError
             ("reading " ++ gomodPath ++ ": " ++ Error e) e))
  | None =>
      if Nat.eqb (List.length deps) 0 then ret ([], [], None)
      else
        '(updates, err) <- checkForUpdates deps ;;
        match err with
        | Some e => ret ([], [], Some e)
        | None => ret (deps, updates, None)
        end
  end.

End Program.

Arguments world {World} _.
Arguments queried {World} _.
Arguments mkState {World} _ _.

(** ** A concrete environment

    A module proxy that answers from a table keyed by [modulePath@branch] and
    reports an unknown revision for anything else, a manifest given by its
    [require] lines, and stand-ins for the library functions.  The examples
    below run the program in it. *)

Module Demo.

Definition World : Type := list (string * execOutcome).

Definition Quote (s : string) : string := "<" ++ s ++ ">".

Definition TrimSpace (s : string) : string := s.

Fixpoint answer (query : string) (table : World) : execOutcome :=
  match table with
  | [] => ExitError ("go: " ++ query ++ ": invalid version: unknown revision")
  | (k, out) :: table' => if String.eqb k query then out else answer query table'
  end.

Definition goList (query : string) (w : World) : execOutcome * World :=
  (answer query w, w).

(** The output of the tool is taken to be the version itself. *)
Definition json_Unmarshal (output : string) : moduleInfo * option error :=
  if String.eqb output ""
  then (mkModuleInfo "" "", Some (errorString "unexpected end of JSON input"))
  else (mkModuleInfo "" output, None).

Definition filepath_Clean (path : string) : string := path.

Definition os_ReadFile (path : string) (w : World)
  : (string * option error) * World :=
  (("module test", None), w).

Definition modfile_Parse (requires : list Require) (file data : string)
  : list Require * option error :=
  (requires, None).

Definition queryModuleVersion :=
  queryModuleVersion TrimSpace World goList json_Unmarshal.
Definition getLatestVersion :=
  getLatestVersion Quote TrimSpace World goList json_Unmarshal.
Definition checkForUpdates :=
  checkForUpdates Quote TrimSpace World goList json_Unmarshal.
Definition latestVersions :=
  latestVersions Quote TrimSpace World goList json_Unmarshal.
Definition findPseudoVersionedDeps (requires : list Require) :=
  findPseudoVersionedDeps World filepath_Clean os_ReadFile
    (modfile_Parse requires).
Definition checkGoMod (requires : list Require) :=
  checkGoMod Quote TrimSpace World goList json_Unmarshal filepath_Clean
    os_ReadFile (modfile_Parse requires).

Definition start (table : World) : State World := mkState table [].

(** The [require] lines of the manifest used by the tests of the scanner. *)
Definition requires : list Require :=
  [ mkRequire "github.com/maxmind/mmdbwriter"
      "v1.1.1-0.20251215205057-2f3252140e00" false;
    mkRequire "github.com/oschwald/maxminddb-golang/v2" "v2.1.1" false;
    mkRequire "go4.org/netipx" "v0.0.0-20231129151722-fdeea329fbba" false;
    mkRequire "github.com/example/indirect"
      "v0.0.0-20231129151722-abcdef123456" true ].

End Demo.

(** Does [s] end with a decimal digit. *)
Fixpoint endsWithDigit (s : string) : bool :=
  match s with
  | EmptyString => false
  | String c EmptyString => decimal_digit c
  | String _ s' => endsWithDigit s'
  end.

(** ** The command: [run] and [main]

    What [fmt.Println] and [fmt.Printf] send to the standard output is
    returned as one text; every write of [run] comes after [checkGoMod] has
    returned, so nothing is lost by not interleaving it with the queries.
    [main] is given what the [flag] package has parsed: the value of [-i] and
    the positional arguments; it returns the standard output, the standard
    error and the exit status of the process. *)

Definition newline : string := String (ascii_of_nat 10) EmptyString.

(** [fmt.Println(s)] *)
Definition Println (s : string) : string := s ++ newline.

(** [fmt.Printf("  %s\n", dep.module)] *)
Definition dependencyLine (dep : dependency) : string :=
  "  " ++ dep_module dep ++ newline.

(** [fmt.Printf("  %s: %s -> %s\n", u.module, u.current, u.latest)] *)
Definition updateLine (u : update) : string :=
  "  " ++ upd_module u ++ ": " ++ upd_current u ++ " -> " ++ upd_latest u
  ++ newline.

(** A [for ... range] loop that prints one line per element. *)
Fixpoint printEach {A : Type} (line : A -> string) (xs : list A) : string :=
  match xs with
  | [] => ""
  | x :: xs' => line x ++ printEach line xs'
  end.

Section Command.

Variable Quote : string -> string.
Variable TrimSpace : string -> string.
Variable World : Type.
Variable goList : string -> World -> execOutcome * World.
Variable json_Unmarshal : string -> moduleInfo * option error.
Variable filepath_Clean : string -> string.
Variable os_ReadFile : string -> World -> (string * option error) * World.
Variable modfile_Parse : string -> string -> list Require * option error.

(** The text written to the standard output, and the two results. *)
Definition run (gomodPath : string) (includeIndirect : bool)
  : M World (string * (bool * option error)) :=
  fun st =>
    let '((deps, updates, err), st') :=
      checkGoMod Quote TrimSpace World goList json_Unmarshal filepath_Clean
        os_ReadFile modfile_Parse gomodPath includeIndirect st in
    match err with
    | Some e => (("", (false, Some e)), st')
    | None =>
        if Nat.eqb (List.length deps) 0
        then ((Println "No pseudo-versioned dependencies found in go.mod.",
               (false, None)), st')
        else
          let out :=
            Println "Pseudo-versioned dependencies in go.mod:"
            ++ printEach dependencyLine deps
            ++ Println "" in
          if Nat.ltb 0 (List.length updates)
          then ((out ++ Println "Updates available:"
                     ++ printEach updateLine updates,
                 (true, None)), st')
          else ((out ++ Println "No updates found for pseudo-versioned dependencies.",
                 (false, None)), st')
    end.

(** The standard output, the standard error and the exit status; returning
    from [main] is exit status 0. *)
Definition main (includeIndirect : bool) (args : list string)
  : M World (string * string * nat) :=
  fun st =>
    let gomodPath :=
      if Nat.ltb 0 (List.length args) then nth 0 args "" else "go.mod" in
    let '((out, (updatesFound, err)), st') := run gomodPath includeIndirect st in
    match err with
    | Some e => ((out, "Error: " ++ Error e ++ newline, 1), st')
    | None =>
        if updatesFound then ((out, "", 1), st') else ((out, "", 0), st')
    end.

End Command.

(** The command in the concrete environment of [Demo]. *)
Module DemoCommand.

(** A file system without the manifest. *)
Definition os_ReadFile_missing (path : string) (w : Demo.World)
  : (string * option error) * Demo.World :=
  (("", Some (errorString ("open " ++ path ++ ": no such file or directory"))), w).

Definition main_missing :=
  main Demo.Quote Demo.TrimSpace Demo.World Demo.goList Demo.json_Unmarshal
    Demo.filepath_Clean os_ReadFile_missing (Demo.modfile_Parse []).

Definition run (requires : list Require) :=
  run Demo.Quote Demo.TrimSpace Demo.World Demo.goList Demo.json_Unmarshal
    Demo.filepath_Clean Demo.os_ReadFile (Demo.modfile_Parse requires).

Definition main (requires : list Require) :=
  main Demo.Quote Demo.TrimSpace Demo.World Demo.goList Demo.json_Unmarshal
    Demo.filepath_Clean Demo.os_ReadFile (Demo.modfile_Parse requires).

End DemoCommand.

(** * Properties *)

(** Discharges [forall e, err = Some e -> Contains (Error e) ... = true] on a
    concrete outcome [err]. *)
Ltac unknown_revision :=
  let e := fresh "e" in
  intros e; first [ intros [= <-]; reflexivity | discriminate ].

(** Two runs in the concrete environment. *)

Example extractTimestamp_demo :
  extractTimestamp Demo.Quote "v1.1.1-0.20251215205057-2f3252140e00"
  = ("20251215205057", None).
Proof. reflexivity. Qed.

Example getLatestVersion_demo :
  fst (Demo.getLatestVersion "go4.org/netipx"
         (Demo.start [("go4.org/netipx@master",
                       Output "v0.0.0-20231129151722-fdeea329fbba")]))
  = ("v0.0.0-20231129151722-fdeea329fbba", None).
Proof. reflexivity. Qed.

(** ** Byte strings *)

Module BytesFacts.

Lemma append_assoc (a b c : string) : (a ++ b) ++ c = a ++ b ++ c.
Proof. induction a as [|x a IH]; simpl; [reflexivity | now rewrite IH]. Qed.

Lemma append_nil_r (a : string) : a ++ "" = a.
Proof. induction a as [|x a IH]; simpl; [reflexivity | now rewrite IH]. Qed.

Lemma length_append (a b : string) :
  String.length (a ++ b) = String.length a + String.length b.
Proof. induction a as [|x a IH]; simpl; [reflexivity | now rewrite IH]. Qed.

Lemma length_zero (a : string) : String.length a = 0 -> a = "".
Proof. destruct a; [reflexivity | discriminate]. Qed.

Lemma all_append (p : ascii -> bool) (a b : string) :
  Bytes.all p (a ++ b) = Bytes.all p a && Bytes.all p b.
Proof.
  induction a as [|x a IH]; simpl; [reflexivity |].
  now rewrite IH, andb_assoc.
Qed.

Lemma all_ext (p q : ascii -> bool) (a : string) :
  (forall c, p c = q c) -> Bytes.all p a = Bytes.all q a.
Proof.
  intros E. induction a as [|x a IH]; simpl; [reflexivity |].
  now rewrite E, IH.
Qed.

(** Two splits of one string with left parts of equal length agree. *)
Lemma append_inj (a a' b b' : string) :
  a ++ b = a' ++ b' -> String.length a = String.length a' ->
  a = a' /\ b = b'.
Proof.
  revert a'. induction a as [|x a IH]; intros [|x' a'] E L; simpl in *;
    try discriminate.
  - now split.
  - injection E as -> E. injection L as L.
    destruct (IH _ E L) as [-> ->]. now split.
Qed.

(** A split point of [a ++ b] at or after the end of [a] lies inside [b]. *)
Lemma append_split_right (a b p t : string) :
  a ++ b = p ++ t -> String.length a <= String.length p ->
  exists p', p = a ++ p' /\ b = p' ++ t.
Proof.
  revert p. induction a as [|x a IH]; intros p E L; simpl in *.
  - now exists p.
  - destruct p as [|y p]; simpl in *; [lia |].
    injection E as -> E.
    destruct (IH p E) as [p' [-> ->]]; [lia |].
    now exists p'.
Qed.

(** Every string longer than [n] splits off its last [n] bytes. *)
Lemma split_suffix (n : nat) (s : string) :
  n <= String.length s ->
  exists p t, s = p ++ t /\ String.length t = n.
Proof.
  induction s as [|x s IH]; simpl; intros L.
  - exists "", "". split; [reflexivity | simpl; lia].
  - destruct (Nat.eq_dec n (S (String.length s))) as [-> | N].
    + exists "", (String x s). now split.
    + destruct IH as [p [t [-> Lt]]]; [lia |].
      exists (String x p), t. now split.
Qed.

End BytesFacts.

Import BytesFacts.

(** ** The matcher *)

Module RegexpFacts.

Lemma inClass_digit (c : ascii) :
  inClass [("0", "9")]%char c = decimal_digit c.
Proof. destruct c as [[] [] [] [] [] [] [] []]; reflexivity. Qed.

Lemma inClass_hex (c : ascii) :
  inClass [("a", "f"); ("0", "9")]%char c = lower_hex_digit c.
Proof. destruct c as [[] [] [] [] [] [] [] []]; reflexivity. Qed.

(** [n] repetitions of a one-byte match take exactly [n] bytes, all in [p]. *)
Lemma repeat_oneByte p n s m rest :
  repeatMatch (oneByte p) n s = Some (m, rest) <->
  s = m ++ rest /\ String.length m = n /\ Bytes.all p m = true.
Proof.
  revert s m rest. induction n as [|n IH]; intros s m rest; cbn [repeatMatch].
  - split.
    + intros [= <- <-]. now repeat split.
    + intros [-> [L _]]. apply length_zero in L. now subst.
  - split.
    + destruct s as [|c s]; cbn [oneByte]; [discriminate |].
      destruct (p c) eqn:C; [| discriminate].
      destruct (repeatMatch (oneByte p) n s) as [[m2 s2]|] eqn:R;
        [| discriminate].
      apply IH in R. destruct R as [-> [L A]].
      intros [= <- <-]. simpl. rewrite C, A, L. now repeat split.
    + intros [-> [L A]]. destruct m as [|c m]; [discriminate |].
      simpl in L, A |- *. injection L as L.
      apply andb_true_iff in A. destruct A as [C A]. rewrite C.
      assert (repeatMatch (oneByte p) n (m ++ rest) = Some (m, rest)) as ->
        by (apply IH; now repeat split).
      reflexivity.
Qed.

Lemma repeat_class ranges n s m rest :
  repeatMatch (matchHere (CharClass ranges)) n s = Some (m, rest) <->
  s = m ++ rest /\ String.length m = n /\ Bytes.all (inClass ranges) m = true.
Proof. apply repeat_oneByte. Qed.

(** [timestampRe] at a position: the next 14 bytes are decimal digits. *)
Lemma timestampRe_here s m rest :
  matchHere timestampRe s = Some (m, rest) <-> s = m ++ rest /\ digit_run 14 m.
Proof.
  unfold digit_run.
  change (matchHere timestampRe s)
    with (repeatMatch (matchHere (CharClass [("0", "9")]%char)) 14 s).
  rewrite repeat_class, (all_ext _ _ m inClass_digit). tauto.
Qed.

(** [pseudoVersionRe] unfolded one constructor at a time. *)
Lemma pseudoVersionRe_unfold s :
  matchHere pseudoVersionRe s =
  match repeatMatch (matchHere (CharClass [("0", "9")]%char)) 14 s with
  | Some (m1, s1) =>
      match
        match oneByte (fun c => Ascii.eqb c "-"%char) s1 with
        | Some (m2, s2) =>
            match
              match repeatMatch
                      (matchHere (CharClass [("a", "f"); ("0", "9")]%char))
                      12 s2 with
              | Some (m3, s3) =>
                  match matchHere EndText s3 with
                  | Some (m4, s4) => Some (m3 ++ m4, s4)
                  | None => None
                  end
              | None => None
              end
            with
            | Some (m34, s4) => Some (m2 ++ m34, s4)
            | None => None
            end
        | None => None
        end
      with
      | Some (m234, s4) => Some (m1 ++ m234, s4)
      | None => None
      end
  | None => None
  end.
Proof. reflexivity. Qed.

(** [pseudoVersionRe] at a position: what is left of the text is exactly
    14 digits, a hyphen and 12 lowercase hex characters. *)
Lemma pseudoVersionRe_here s :
  matchHere pseudoVersionRe s <> None <->
  exists ts h, s = ts ++ "-" ++ h /\ digit_run 14 ts /\ hex_run 12 h.
Proof.
  rewrite pseudoVersionRe_unfold. unfold digit_run, hex_run. split.
  - destruct (repeatMatch _ 14 s) as [[ts s1]|] eqn:R1; [| congruence].
    apply repeat_class in R1. destruct R1 as [-> [L1 A1]].
    destruct s1 as [|c s1]; cbn [oneByte]; [congruence |].
    destruct (Ascii.eqb_spec c "-"%char) as [-> |]; [| congruence].
    destruct (repeatMatch _ 12 s1) as [[h s2]|] eqn:R2; [| congruence].
    apply repeat_class in R2. destruct R2 as [-> [L2 A2]].
    destruct s2; cbn [matchHere]; [| congruence]. intros _.
    exists ts, h. rewrite append_nil_r.
    rewrite (all_ext _ _ ts inClass_digit) in A1.
    rewrite (all_ext _ _ h inClass_hex) in A2. now repeat split.
  - intros [ts [h [-> [[L1 A1] [L2 A2]]]]].
    rewrite <- (all_ext _ _ ts inClass_digit) in A1.
    rewrite <- (all_ext _ _ h inClass_hex) in A2.
    assert (repeatMatch (matchHere (CharClass [("0", "9")]%char)) 14
              (ts ++ "-" ++ h) = Some (ts, "-" ++ h)) as ->
      by (apply repeat_class; now repeat split).
    cbn [oneByte append Ascii.eqb Bool.eqb].
    assert (repeatMatch (matchHere (CharClass [("a", "f"); ("0", "9")]%char))
              12 h = Some (h, "")) as ->
      by (apply repeat_class; rewrite append_nil_r; now repeat split).
    discriminate.
Qed.

(** [MatchString] tries every position. *)
Lemma MatchString_iff r s :
  MatchString r s = true <->
  exists p t, s = p ++ t /\ matchHere r t <> None.
Proof.
  induction s as [|c s IH]; simpl.
  - destruct (matchHere r "") eqn:H.
    + split; [| reflexivity]. intros _. exists "", "". split; [reflexivity |].
      congruence.
    + split; [discriminate |]. intros [p [t [E N]]].
      destruct p; [| discriminate]. simpl in E. subst. contradiction.
  - destruct (matchHere r (String c s)) eqn:H.
    + split; [| reflexivity]. intros _. exists "", (String c s).
      split; [reflexivity | congruence].
    + rewrite IH. split.
      * intros [p [t [-> N]]]. now exists (String c p), t.
      * intros [p [t [E N]]]. destruct p as [|c' p]; simpl in E.
        -- subst. contradiction.
        -- injection E as -> ->. now exists p, t.
Qed.

(** [FindString] returns the match at the first position that has one. *)
Lemma FindString_leftmost r s p t m q :
  s = p ++ t -> matchHere r t = Some (m, q) ->
  (forall p' t', s = p' ++ t' -> String.length p' < String.length p ->
                 matchHere r t' = None) ->
  FindString r s = m.
Proof.
  revert s. induction p as [|c p IH]; intros s -> H Left.
  - simpl. destruct t; simpl; now rewrite H.
  - simpl. rewrite (Left "" (String c (p ++ t))); [| reflexivity | simpl; lia].
    apply IH; [reflexivity | assumption |].
    intros p' t' E L. apply (Left (String c p') t'); simpl; [now rewrite E | lia].
Qed.

Lemma FindString_none r s :
  (forall p t, s = p ++ t -> matchHere r t = None) -> FindString r s = "".
Proof.
  induction s as [|c s IH]; intros N; simpl.
  - now rewrite (N "" "").
  - rewrite (N "" (String c s)); [| reflexivity].
    apply IH. intros p t ->. now apply (N (String c p) t).
Qed.

(** Either some position matches, and then there is a first one, or none. *)
Lemma first_match r s :
  (exists p t m q, s = p ++ t /\ matchHere r t = Some (m, q) /\
     forall p' t', s = p' ++ t' -> String.length p' < String.length p ->
                   matchHere r t' = None)
  \/ (forall p t, s = p ++ t -> matchHere r t = None).
Proof.
  induction s as [|c s IH].
  - destruct (matchHere r "") as [[m q]|] eqn:H.
    + left. exists "", "", m, q. repeat split; [assumption |].
      intros p' t' _ L. simpl in L. lia.
    + right. intros p t E. destruct p; [| discriminate]. simpl in E. now subst.
  - destruct (matchHere r (String c s)) as [[m q]|] eqn:H.
    + left. exists "", (String c s), m, q. repeat split; [assumption |].
      intros p' t' _ L. simpl in L. lia.
    + destruct IH as [[p [t [m [q [-> [Hm Left]]]]]] | N].
      * left. exists (String c p), t, m, q. repeat split; [assumption |].
        intros p' t' E L. destruct p' as [|c' p']; simpl in E.
        -- now subst.
        -- injection E as -> E. apply (Left p' t' E). simpl in L. lia.
      * right. intros p t E. destruct p as [|c' p]; simpl in E.
        -- now subst.
        -- injection E as -> ->. now apply (N p t).
Qed.

End RegexpFacts.

Import RegexpFacts.

(** ** The classifier *)

Lemma MatchString_pseudoVersionRe (s : string) :
  MatchString pseudoVersionRe s = true <-> pseudo_version_shape s.
Proof.
  rewrite MatchString_iff. unfold pseudo_version_shape. split.
  - intros [p [t [-> H]]]. apply pseudoVersionRe_here in H.
    destruct H as [ts [h [-> [D X]]]]. now exists p, ts, h.
  - intros [p [ts [h [-> [D X]]]]]. exists p, (ts ++ "-" ++ h).
    split; [reflexivity |]. apply pseudoVersionRe_here. now exists ts, h.
Qed.

(** A prefix in front of at least 27 bytes does not change the shape. *)
Lemma pseudo_version_shape_suffix (p t : string) :
  27 <= String.length t ->
  pseudo_version_shape (p ++ t) <-> pseudo_version_shape t.
Proof.
  intros L. unfold pseudo_version_shape. split.
  - intros [p0 [ts [h [E [[Lts D] [Lh X]]]]]].
    assert (String.length p <= String.length p0) as Lp.
    { apply (f_equal String.length) in E.
      rewrite !length_append in E. simpl in E. lia. }
    destruct (append_split_right _ _ _ _ E Lp) as [p' [-> ->]].
    exists p', ts, h. now repeat split.
  - intros [p0 [ts [h [-> [D X]]]]]. exists (p ++ p0), ts, h.
    split; [now rewrite append_assoc | now split].
Qed.

(** C1: [pseudoVersionRe.MatchString(s)] is true if and only if [s] ends with
    14 decimal digits, a hyphen and exactly 12 lowercase hexadecimal
    characters with nothing after; whatever precedes the last 27 bytes,
    digit runs included, has no influence; ["v1.2.3"] and ["v1.2.3-beta.1"]
    are not matched, nor is a version with a thirteenth hex character, with
    upper-case hex or with a byte after the hash. *)
Theorem pseudoVersionRe_trailing_shape :
  (forall s, MatchString pseudoVersionRe s = true <-> pseudo_version_shape s) /\
  (forall p t, 27 <= String.length t ->
     MatchString pseudoVersionRe (p ++ t) = MatchString pseudoVersionRe t) /\
  MatchString pseudoVersionRe "v1.2.3" = false /\
  MatchString pseudoVersionRe "v1.2.3-beta.1" = false /\
  MatchString pseudoVersionRe "v0.0.0-20231129151722-fdeea329fbba0" = false /\
  MatchString pseudoVersionRe "v0.0.0-20231129151722-FDEEA329FBBA" = false /\
  MatchString pseudoVersionRe "v0.0.0-20231129151722-fdeea329fbba " = false.
Proof.
  split; [exact MatchString_pseudoVersionRe |].
  split; [| repeat split; reflexivity].
  intros p t L. apply eq_true_iff_eq.
  rewrite !MatchString_pseudoVersionRe. now apply pseudo_version_shape_suffix.
Qed.

Lemma pseudoVersionRe_trailing_shape_witness :
  pseudo_version_shape "v1.1.1-0.20251215205057-2f3252140e00" /\
  MatchString pseudoVersionRe
    ("20200101000000-0123456789ab " ++ "v0.0.0-20231129151722-fdeea329fbba")
  = MatchString pseudoVersionRe "v0.0.0-20231129151722-fdeea329fbba".
Proof.
  split.
  - apply (proj1 pseudoVersionRe_trailing_shape). reflexivity.
  - apply (proj1 (proj2 pseudoVersionRe_trailing_shape)). simpl. lia.
Defined.

(** ** Timestamps *)

(** Having a run of 14 digits is decided by running [timestampRe]. *)
Lemma has_timestamp_iff (s : string) :
  has_timestamp s <-> MatchString timestampRe s = true.
Proof.
  rewrite MatchString_iff. unfold has_timestamp. split.
  - intros [p [ts [q [-> D]]]]. exists p, (ts ++ q). split; [reflexivity |].
    assert (matchHere timestampRe (ts ++ q) = Some (ts, q)) as ->
      by (apply timestampRe_here; now split).
    discriminate.
  - intros [p [t [-> H]]].
    destruct (matchHere timestampRe t) as [[m q]|] eqn:E; [| contradiction].
    apply timestampRe_here in E. destruct E as [-> D]. now exists p, m, q.
Qed.

Lemma no_timestamp_iff (s : string) :
  ~ has_timestamp s <-> MatchString timestampRe s = false.
Proof. rewrite has_timestamp_iff. now destruct (MatchString timestampRe s). Qed.

(** Go's string order on digit strings of one length is the order of the
    numbers they denote. *)
Lemma digitValue_spec (c : ascii) :
  decimal_digit c = true ->
  (N_of_ascii c = 48 + digitValue c /\ digitValue c < 10)%N.
Proof.
  destruct c as [[] [] [] [] [] [] [] []]; intros H;
    solve [discriminate H | split; reflexivity].
Qed.

Lemma decimalValue_bound (s : string) :
  Bytes.all decimal_digit s = true ->
  (decimalValue s < 10 ^ N.of_nat (String.length s))%N.
Proof.
  induction s as [|c s IH]; intros A.
  - reflexivity.
  - cbn [Bytes.all] in A. apply andb_true_iff in A. destruct A as [C A].
    destruct (digitValue_spec c C) as [_ B]. specialize (IH A).
    cbn [decimalValue String.length].
    rewrite Nat2N.inj_succ, N.pow_succ_r'. nia.
Qed.

Lemma compare_digit_runs (a b : string) :
  String.length a = String.length b ->
  Bytes.all decimal_digit a = true -> Bytes.all decimal_digit b = true ->
  String.compare a b = (decimalValue a ?= decimalValue b)%N.
Proof.
  revert b. induction a as [|c1 a IH]; intros [|c2 b] L A B;
    try discriminate L; [reflexivity |].
  injection L as L.
  cbn [Bytes.all] in A, B.
  apply andb_true_iff in A. destruct A as [C1 A].
  apply andb_true_iff in B. destruct B as [C2 B].
  destruct (digitValue_spec c1 C1) as [E1 B1].
  destruct (digitValue_spec c2 C2) as [E2 B2].
  pose proof (decimalValue_bound a A) as Ba.
  pose proof (decimalValue_bound b B) as Bb.
  cbn [String.compare decimalValue]. unfold Ascii.compare.
  rewrite E1, E2, L, (IH b L A B). rewrite L in Ba.
  set (P := (10 ^ N.of_nat (String.length b))%N) in *.
  destruct (N.compare_spec (digitValue c1) (digitValue c2)) as [E | Lt | Gt].
  - rewrite E, N.compare_refl.
    destruct (N.compare_spec (decimalValue a) (decimalValue b)) as [Ev | Lv | Gv];
      symmetry.
    + apply N.compare_eq_iff. lia.
    + apply N.compare_lt_iff. lia.
    + apply N.compare_gt_iff. lia.
  - assert ((48 + digitValue c1 ?= 48 + digitValue c2)%N = Datatypes.Lt) as ->
      by (apply N.compare_lt_iff; lia).
    assert ((digitValue c1 + 1) * P <= digitValue c2 * P)%N
      by (apply N.mul_le_mono_r; lia).
    symmetry. apply N.compare_lt_iff. lia.
  - assert ((48 + digitValue c1 ?= 48 + digitValue c2)%N = Datatypes.Gt) as ->
      by (apply N.compare_gt_iff; lia).
    assert ((digitValue c2 + 1) * P <= digitValue c1 * P)%N
      by (apply N.mul_le_mono_r; lia).
    symmetry. apply N.compare_gt_iff. lia.
Qed.

Lemma geb_digit_runs (n : nat) (a b : string) :
  digit_run n a -> digit_run n b ->
  Bytes.geb a b = (decimalValue b <=? decimalValue a)%N.
Proof.
  intros [La Aa] [Lb Ab]. unfold Bytes.geb, String.leb, N.leb.
  rewrite (compare_digit_runs b a); [reflexivity | congruence | assumption ..].
Qed.

Section TimestampFacts.

Variable Quote : string -> string.

(** The two outcomes of [extractTimestamp]: the leftmost run of 14 digits, or
    the error when [version] has no such run. *)
Lemma extractTimestamp_cases (s : string) :
  (exists p ts q,
      s = p ++ ts ++ q /\ digit_run 14 ts /\
      (forall p' ts' q', s = p' ++ ts' ++ q' -> digit_run 14 ts' ->
                         String.length p <= String.length p') /\
      extractTimestamp Quote s = (ts, None))
  \/ (~ has_timestamp s /\
      extractTimestamp Quote s = ("", Some (noTimestampError Quote s))).
Proof.
  unfold extractTimestamp.
  destruct (first_match timestampRe s) as [[p [t [m [q [-> [H Left]]]]]] | N].
  - left. pose proof H as H'. apply timestampRe_here in H'.
    destruct H' as [-> D]. exists p, m, q.
    split; [reflexivity |]. split; [assumption |]. split.
    + intros p' ts' q' E D'.
      destruct (Nat.le_gt_cases (String.length p) (String.length p'))
        as [|Lt]; [assumption |].
      assert (matchHere timestampRe (ts' ++ q') = Some (ts', q')) as C
        by (apply timestampRe_here; now split).
      rewrite (Left p' (ts' ++ q') E Lt) in C. discriminate.
    + rewrite (FindString_leftmost _ _ p (m ++ q) m q eq_refl H Left).
      destruct D as [L _]. destruct m; [discriminate | reflexivity].
  - right. split.
    + intros [p [ts [q [E D]]]].
      assert (matchHere timestampRe (ts ++ q) = Some (ts, q)) as C
        by (apply timestampRe_here; now split).
      rewrite (N p (ts ++ q) E) in C. discriminate.
    + now rewrite (FindString_none _ _ N).
Qed.

Lemma extractTimestamp_found (s : string) :
  has_timestamp s ->
  exists ts, digit_run 14 ts /\ extractTimestamp Quote s = (ts, None).
Proof.
  intros H. destruct (extractTimestamp_cases s) as [[p [ts [q [_ [D [_ E]]]]]] | [N _]].
  - now exists ts.
  - contradiction.
Qed.

Lemma extractTimestamp_missing (s : string) :
  ~ has_timestamp s ->
  extractTimestamp Quote s = ("", Some (noTimestampError Quote s)).
Proof.
  intros N. destruct (extractTimestamp_cases s) as [[p [ts [q [E [D _]]]]] | [_ E]].
  - exfalso. apply N. now exists p, ts, q.
  - assumption.
Qed.

Lemma has_timestamp_dec (s : string) : has_timestamp s \/ ~ has_timestamp s.
Proof.
  destruct (extractTimestamp_cases s) as [[p [ts [q [E [D _]]]]] | [N _]].
  - left. now exists p, ts, q.
  - now right.
Qed.

Lemma geb_refl (s : string) : Bytes.geb s s = true.
Proof.
  unfold Bytes.geb, String.leb.
  pose proof (String.compare_antisym s s) as A.
  destruct (String.compare s s); try reflexivity; discriminate.
Qed.

Lemma newerVersion_missing_a (a b : string) :
  ~ has_timestamp a ->
  newerVersion Quote a b = ("", Some (noTimestampError Quote a)).
Proof.
  intros Na. unfold newerVersion.
  now rewrite (extractTimestamp_missing a Na).
Qed.

Lemma newerVersion_missing_b (a b : string) :
  has_timestamp a -> ~ has_timestamp b ->
  newerVersion Quote a b = ("", Some (noTimestampError Quote b)).
Proof.
  intros Ha Nb. unfold newerVersion.
  destruct (extractTimestamp_found a Ha) as [tsA [_ ->]].
  now rewrite (extractTimestamp_missing b Nb).
Qed.

Lemma newerVersion_found (a b : string) :
  has_timestamp a -> has_timestamp b ->
  newerVersion Quote a b
  = (if Bytes.geb (fst (extractTimestamp Quote a))
                  (fst (extractTimestamp Quote b))
     then a else b, None).
Proof.
  intros Ha Hb. unfold newerVersion.
  destruct (extractTimestamp_found a Ha) as [tsA [_ ->]].
  destruct (extractTimestamp_found b Hb) as [tsB [_ ->]].
  simpl. now destruct (Bytes.geb tsA tsB).
Qed.

(** On extracted timestamps the string order is the order of the numbers. *)
Lemma timestamp_order (a b : string) :
  has_timestamp a -> has_timestamp b ->
  Bytes.geb (fst (extractTimestamp Quote a)) (fst (extractTimestamp Quote b))
  = (decimalValue (fst (extractTimestamp Quote b))
     <=? decimalValue (fst (extractTimestamp Quote a)))%N.
Proof.
  intros Ha Hb.
  destruct (extractTimestamp_found a Ha) as [tsA [Da ->]].
  destruct (extractTimestamp_found b Hb) as [tsB [Db ->]].
  now apply (geb_digit_runs 14).
Qed.

End TimestampFacts.

(** C8: [extractTimestamp] returns the leftmost run of 14 consecutive decimal
    digits of its argument, wherever it stands, and fails with the
    no-timestamp error exactly when the argument has no such run. *)
Theorem extractTimestamp_leftmost_run (Quote : string -> string) :
  (forall s, has_timestamp s ->
     exists p ts q,
       s = p ++ ts ++ q /\ digit_run 14 ts /\
       (forall p' ts' q', s = p' ++ ts' ++ q' -> digit_run 14 ts' ->
                          String.length p <= String.length p') /\
       extractTimestamp Quote s = (ts, None)) /\
  (forall s, ~ has_timestamp s ->
     extractTimestamp Quote s = ("", Some (noTimestampError Quote s))) /\
  (forall s, snd (extractTimestamp Quote s) <> None <-> ~ has_timestamp s) /\
  extractTimestamp Quote "v0.0.0-20231129151722-fdeea329fbba"
    = ("20231129151722", None) /\
  extractTimestamp Quote "v1.2.3"
    = ("", Some (noTimestampError Quote "v1.2.3")) /\
  (MatchString pseudoVersionRe "v0.0.0-19700101000000.20231129151722-fdeea329fbba"
     = true /\
   extractTimestamp Quote "v0.0.0-19700101000000.20231129151722-fdeea329fbba"
     = ("19700101000000", None)).
Proof.
  split; [| split; [| split; [| repeat split; reflexivity]]].
  - intros s H.
    destruct (extractTimestamp_cases Quote s) as [C | [N _]];
      [exact C | contradiction].
  - apply extractTimestamp_missing.
  - intros s. split.
    + intros F H. destruct (extractTimestamp_found Quote s H) as [ts [_ E]].
      rewrite E in F. now apply F.
    + intros N. rewrite (extractTimestamp_missing Quote s N). discriminate.
Qed.

Lemma extractTimestamp_leftmost_run_witness :
  (exists p ts q,
      "v1.1.1-0.20251215205057-2f3252140e00" = p ++ ts ++ q /\
      digit_run 14 ts /\
      (forall p' ts' q',
          "v1.1.1-0.20251215205057-2f3252140e00" = p' ++ ts' ++ q' ->
          digit_run 14 ts' -> String.length p <= String.length p') /\
      extractTimestamp Demo.Quote "v1.1.1-0.20251215205057-2f3252140e00"
      = (ts, None)) /\
  extractTimestamp Demo.Quote "v1.2.3-beta.1"
  = ("", Some (errorString "no timestamp found in version <v1.2.3-beta.1>")).
Proof.
  split.
  - apply (proj1 (extractTimestamp_leftmost_run Demo.Quote)).
    apply has_timestamp_iff. reflexivity.
  - apply (proj1 (proj2 (extractTimestamp_leftmost_run Demo.Quote))).
    apply no_timestamp_iff. reflexivity.
Defined.

(** C2: [newerVersion a b] fails with the no-timestamp error of [a] when [a]
    has no run of 14 digits, else with that of [b] when [b] has none; else it
    returns [a] when the timestamp of [a] is [>=] that of [b] as strings
    (so also when they are equal) and [b] otherwise; on two timestamps the
    string order is the order of the numbers they denote. *)
Theorem newerVersion_by_timestamp (Quote : string -> string) (a b : string) :
  (~ has_timestamp a ->
     newerVersion Quote a b = ("", Some (noTimestampError Quote a))) /\
  (has_timestamp a -> ~ has_timestamp b ->
     newerVersion Quote a b = ("", Some (noTimestampError Quote b))) /\
  (has_timestamp a -> has_timestamp b ->
     newerVersion Quote a b
     = (if Bytes.geb (fst (extractTimestamp Quote a))
                     (fst (extractTimestamp Quote b))
        then a else b, None)) /\
  (has_timestamp a -> has_timestamp b ->
     fst (extractTimestamp Quote a) = fst (extractTimestamp Quote b) ->
     newerVersion Quote a b = (a, None)) /\
  (has_timestamp a -> has_timestamp b ->
     Bytes.geb (fst (extractTimestamp Quote a)) (fst (extractTimestamp Quote b))
     = (decimalValue (fst (extractTimestamp Quote b))
        <=? decimalValue (fst (extractTimestamp Quote a)))%N).
Proof.
  split; [| split; [| split; [| split]]].
  - apply newerVersion_missing_a.
  - apply newerVersion_missing_b.
  - apply newerVersion_found.
  - intros Ha Hb E. rewrite (newerVersion_found Quote a b Ha Hb), E.
    now rewrite geb_refl.
  - apply timestamp_order.
Qed.

Lemma newerVersion_by_timestamp_witness :
  newerVersion Demo.Quote "v1.2.3" "v0.0.0-20231201000000-bbbbbbbbbbbb"
  = ("", Some (errorString "no timestamp found in version <v1.2.3>")) /\
  newerVersion Demo.Quote "v0.0.0-20231201000000-aaaaaaaaaaaa" "v1.2.3"
  = ("", Some (errorString "no timestamp found in version <v1.2.3>")) /\
  newerVersion Demo.Quote "v0.0.0-20231101000000-aaaaaaaaaaaa"
    "v0.0.0-20231201000000-bbbbbbbbbbbb"
  = ("v0.0.0-20231201000000-bbbbbbbbbbbb", None) /\
  newerVersion Demo.Quote "v0.0.0-20231201000000-aaaaaaaaaaaa"
    "v0.0.0-20231201000000-bbbbbbbbbbbb"
  = ("v0.0.0-20231201000000-aaaaaaaaaaaa", None).
Proof.
  split; [| split; [| split]].
  - apply (proj1 (newerVersion_by_timestamp Demo.Quote "v1.2.3"
                    "v0.0.0-20231201000000-bbbbbbbbbbbb")).
    apply no_timestamp_iff. reflexivity.
  - apply (proj1 (proj2 (newerVersion_by_timestamp Demo.Quote
                           "v0.0.0-20231201000000-aaaaaaaaaaaa" "v1.2.3"))).
    + apply has_timestamp_iff. reflexivity.
    + apply no_timestamp_iff. reflexivity.
  - apply (proj1 (proj2 (proj2 (newerVersion_by_timestamp Demo.Quote
                                  "v0.0.0-20231101000000-aaaaaaaaaaaa"
                                  "v0.0.0-20231201000000-bbbbbbbbbbbb")))).
    + apply has_timestamp_iff. reflexivity.
    + apply has_timestamp_iff. reflexivity.
  - apply (proj1 (proj2 (proj2 (proj2 (newerVersion_by_timestamp Demo.Quote
                                  "v0.0.0-20231201000000-aaaaaaaaaaaa"
                                  "v0.0.0-20231201000000-bbbbbbbbbbbb"))))).
    + apply has_timestamp_iff. reflexivity.
    + apply has_timestamp_iff. reflexivity.
    + reflexivity.
Defined.

(** ** The scanner *)

Lemma scanRequires_filter (reqs : list Require) (includeIndirect : bool)
    (deps : list dependency) :
  scanRequires reqs includeIndirect deps
  = (deps ++ map asDependency (filter (emitted includeIndirect) reqs))%list.
Proof.
  revert deps. induction reqs as [|req reqs IH]; intros deps; simpl.
  - now rewrite app_nil_r.
  - unfold emitted at 1.
    destruct (MatchString pseudoVersionRe (Mod_Version req)); simpl.
    + destruct (Indirect req && negb includeIndirect); simpl.
      * apply IH.
      * rewrite IH, <- app_assoc. reflexivity.
    + apply IH.
Qed.

Section ScannerFacts.

Variable World : Type.
Variable filepath_Clean : string -> string.
Variable os_ReadFile : string -> World -> (string * option error) * World.
Variable modfile_Parse : string -> string -> list Require * option error.

Let scan := findPseudoVersionedDeps World filepath_Clean os_ReadFile modfile_Parse.

(** Whatever [findPseudoVersionedDeps] returns is the filtered image of some
    list of entries. *)
Lemma findPseudoVersionedDeps_image gomodPath includeIndirect st deps err st' :
  scan gomodPath includeIndirect st = ((deps, err), st') ->
  exists reqs, deps = map asDependency (filter (emitted includeIndirect) reqs).
Proof.
  unfold scan, findPseudoVersionedDeps.
  destruct (os_ReadFile _ _) as [[data [e|]] w].
  - intros [= <- _ _]. now exists [].
  - destruct (modfile_Parse gomodPath data) as [reqs [e|]].
    + intros [= <- _ _]. now exists [].
    + intros [= <- _ _]. exists reqs. apply scanRequires_filter.
Qed.

End ScannerFacts.

(** C5: when the manifest is read and parsed into [reqs],
    [findPseudoVersionedDeps] returns, in the order of [reqs], the module path
    and version of exactly the entries whose version [pseudoVersionRe] matches
    and that are not indirect while [includeIndirect] is false. *)
Theorem findPseudoVersionedDeps_filters
    (World : Type) (filepath_Clean : string -> string)
    (os_ReadFile : string -> World -> (string * option error) * World)
    (modfile_Parse : string -> string -> list Require * option error)
    (gomodPath : string) (includeIndirect : bool) (st : State World)
    (data : string) (w : World) (reqs : list Require) :
  os_ReadFile (filepath_Clean gomodPath) (world st) = ((data, None), w) ->
  modfile_Parse gomodPath data = (reqs, None) ->
  let deps := map asDependency (filter (emitted includeIndirect) reqs) in
  findPseudoVersionedDeps World filepath_Clean os_ReadFile modfile_Parse
    gomodPath includeIndirect st
  = ((deps, None), mkState w (queried st)) /\
  (forall d, In d deps <->
     exists req, In req reqs /\
       MatchString pseudoVersionRe (Mod_Version req) = true /\
       ~ (Indirect req = true /\ includeIndirect = false) /\
       d = mkDependency (Mod_Path req) (Mod_Version req)).
Proof.
  intros R P deps. split.
  - unfold findPseudoVersionedDeps. rewrite R, P.
    now rewrite scanRequires_filter.
  - intros d. unfold deps. rewrite in_map_iff. split.
    + intros [req [<- F]]. apply filter_In in F. destruct F as [I E].
      exists req. unfold emitted in E. apply andb_true_iff in E.
      destruct E as [E1 E2]. repeat split; try assumption.
      intros [A B]. rewrite A, B in E2. discriminate.
    + intros [req [I [E1 [E2 ->]]]]. exists req. split; [reflexivity |].
      apply filter_In. split; [assumption |]. unfold emitted. rewrite E1.
      destruct (Indirect req), includeIndirect; try reflexivity.
      exfalso. now apply E2.
Qed.

Lemma findPseudoVersionedDeps_filters_witness :
  fst (Demo.findPseudoVersionedDeps Demo.requires "go.mod" false (Demo.start []))
  = ([ mkDependency "github.com/maxmind/mmdbwriter"
         "v1.1.1-0.20251215205057-2f3252140e00";
       mkDependency "go4.org/netipx" "v0.0.0-20231129151722-fdeea329fbba" ],
     None) /\
  fst (Demo.findPseudoVersionedDeps Demo.requires "go.mod" true (Demo.start []))
  = ([ mkDependency "github.com/maxmind/mmdbwriter"
         "v1.1.1-0.20251215205057-2f3252140e00";
       mkDependency "go4.org/netipx" "v0.0.0-20231129151722-fdeea329fbba";
       mkDependency "github.com/example/indirect"
         "v0.0.0-20231129151722-abcdef123456" ],
     None).
Proof.
  unfold Demo.findPseudoVersionedDeps. split.
  - rewrite (proj1 (findPseudoVersionedDeps_filters Demo.World
                      Demo.filepath_Clean Demo.os_ReadFile
                      (Demo.modfile_Parse Demo.requires) "go.mod" false
                      (Demo.start []) "module test" [] Demo.requires
                      eq_refl eq_refl)).
    reflexivity.
  - rewrite (proj1 (findPseudoVersionedDeps_filters Demo.World
                      Demo.filepath_Clean Demo.os_ReadFile
                      (Demo.modfile_Parse Demo.requires) "go.mod" true
                      (Demo.start []) "module test" [] Demo.requires
                      eq_refl eq_refl)).
    reflexivity.
Defined.

(** C9: every dependency returned by [findPseudoVersionedDeps] has a version
    that ends with 14 digits, a hyphen and 12 lowercase hex characters, and
    [extractTimestamp] succeeds on it. *)
Theorem scanned_version_has_timestamp
    (Quote : string -> string)
    (World : Type) (filepath_Clean : string -> string)
    (os_ReadFile : string -> World -> (string * option error) * World)
    (modfile_Parse : string -> string -> list Require * option error)
    (gomodPath : string) (includeIndirect : bool) (st st' : State World)
    (deps : list dependency) (err : option error) (d : dependency) :
  findPseudoVersionedDeps World filepath_Clean os_ReadFile modfile_Parse
    gomodPath includeIndirect st = ((deps, err), st') ->
  In d deps ->
  pseudo_version_shape (dep_version d) /\
  exists ts, digit_run 14 ts /\
             extractTimestamp Quote (dep_version d) = (ts, None).
Proof.
  intros Run I.
  destruct (findPseudoVersionedDeps_image _ _ _ _ _ _ _ _ _ _ Run)
    as [reqs ->].
  apply in_map_iff in I. destruct I as [req [<- F]].
  apply filter_In in F. destruct F as [_ E].
  unfold emitted in E. apply andb_true_iff in E. destruct E as [E _].
  apply MatchString_pseudoVersionRe in E.
  change (dep_version (asDependency req)) with (Mod_Version req).
  split; [exact E |].
  apply extractTimestamp_found.
  destruct E as [p [ts [h [-> [D _]]]]]. now exists p, ts, ("-" ++ h).
Qed.

Lemma scanned_version_has_timestamp_witness :
  pseudo_version_shape "v0.0.0-20231129151722-abcdef123456" /\
  exists ts, digit_run 14 ts /\
             extractTimestamp Demo.Quote "v0.0.0-20231129151722-abcdef123456"
             = (ts, None).
Proof.
  apply (scanned_version_has_timestamp Demo.Quote Demo.World
           Demo.filepath_Clean Demo.os_ReadFile
           (Demo.modfile_Parse Demo.requires) "go.mod" true (Demo.start [])
           (snd (Demo.findPseudoVersionedDeps Demo.requires "go.mod" true
                   (Demo.start [])))
           (fst (fst (Demo.findPseudoVersionedDeps Demo.requires "go.mod" true
                        (Demo.start []))))
           None
           (mkDependency "github.com/example/indirect"
              "v0.0.0-20231129151722-abcdef123456")).
  - reflexivity.
  - vm_compute. right. right. left. reflexivity.
Defined.

(** ** The default-branch resolver *)

Section ResolverFacts.

Variable Quote : string -> string.
Variable TrimSpace : string -> string.
Variable World : Type.
Variable goList : string -> World -> execOutcome * World.
Variable json_Unmarshal : string -> moduleInfo * option error.

Let query := queryModuleVersion TrimSpace World goList json_Unmarshal.
Let latest := getLatestVersion Quote TrimSpace World goList json_Unmarshal.

(** Each call of [queryModuleVersion] is recorded, and nothing else is. *)
Lemma queryModuleVersion_queried modulePath branch st :
  queried (snd (query modulePath branch st))
  = (queried st ++ [(modulePath, branch)])%list.
Proof.
  unfold query, queryModuleVersion.
  destruct (goList _ _) as [[output | stderr | err] w]; try reflexivity.
  destruct (json_Unmarshal output) as [info [e|]]; reflexivity.
Qed.

(** [getLatestVersion] read off the outcomes of its two queries. *)
Lemma getLatestVersion_unfold modulePath st :
  latest modulePath st =
  let '((v1, e1), st1) := query modulePath "main" st in
  match e1 with
  | Some e =>
      if Bytes.Contains (Error e) "unknown revision" then
        let '((v2, e2), st2) := query modulePath "master" st1 in
        match e2 with
        | Some e' =>
            if Bytes.Contains (Error e') "unknown revision"
            then (("", Some (errors_New "neither main nor master branch found")),
                  st2)
            else (("", Some e'), st2)
        | None => ((v2, None), st2)
        end
      else (("", Some e), st1)
  | None =>
      let '((v2, e2), st2) := query modulePath "master" st1 in
      match e2 with
      | Some e' =>
          if Bytes.Contains (Error e') "unknown revision"
          then ((v1, None), st2)
          else (("", Some e'), st2)
      | None => (newerVersion Quote v1 v2, st2)
      end
  end.
Proof.
  unfold latest, getLatestVersion, probeBranches, bind, ret. fold query.
  destruct (query modulePath "main" st) as [[v1 [e|]] st1].
  - destruct (Bytes.Contains (Error e) "unknown revision"); [| reflexivity].
    destruct (query modulePath "master" st1) as [[v2 [e'|]] st2];
      [| reflexivity].
    destruct (Bytes.Contains (Error e') "unknown revision"); reflexivity.
  - destruct (query modulePath "master" st1) as [[v2 [e'|]] st2];
      [| reflexivity].
    destruct (Bytes.Contains (Error e') "unknown revision"); reflexivity.
Qed.

(** C3, as the code has it: when neither query fails with an error other than
    an unknown revision, [getLatestVersion] fails with the no-branch error if
    both fail, returns the one resolved version if exactly one query
    resolves, and, if both resolve to versions that contain a run of 14
    digits, returns the one whose timestamp denotes the later instant, the
    first of the two when the timestamps are equal. *)
Theorem getLatestVersion_by_successes
    modulePath st v1 e1 st1 v2 e2 st2 :
  query modulePath "main" st = ((v1, e1), st1) ->
  query modulePath "master" st1 = ((v2, e2), st2) ->
  (forall e, e1 = Some e -> Bytes.Contains (Error e) "unknown revision" = true) ->
  (forall e, e2 = Some e -> Bytes.Contains (Error e) "unknown revision" = true) ->
  match e1, e2 with
  | Some _, Some _ =>
      latest modulePath st
      = (("", Some (errors_New "neither main nor master branch found")), st2)
  | None, Some _ => latest modulePath st = ((v1, None), st2)
  | Some _, None => latest modulePath st = ((v2, None), st2)
  | None, None =>
      has_timestamp v1 -> has_timestamp v2 ->
      latest modulePath st
      = ((if (decimalValue (fst (extractTimestamp Quote v2))
              <=? decimalValue (fst (extractTimestamp Quote v1)))%N
          then v1 else v2, None), st2)
  end.
Proof.
  intros Q1 Q2 U1 U2. rewrite getLatestVersion_unfold, Q1.
  destruct e1 as [e|], e2 as [e'|].
  - now rewrite (U1 e eq_refl), Q2, (U2 e' eq_refl).
  - now rewrite (U1 e eq_refl), Q2.
  - now rewrite Q2, (U2 e' eq_refl).
  - rewrite Q2. intros H1 H2.
    now rewrite (newerVersion_found Quote v1 v2 H1 H2),
      (timestamp_order Quote v1 v2 H1 H2).
Qed.

(** C4: a failure of [main] whose text contains "unknown revision" makes
    [getLatestVersion] query [master] and return what [master] resolves to;
    any other failure of [main] is returned as it is with [main] the only
    branch queried; any other failure of [master], reached after [main]
    resolved or was unknown, is returned as it is. *)
Theorem getLatestVersion_fallback_or_abort modulePath st v1 e1 st1 :
  query modulePath "main" st = ((v1, e1), st1) ->
  (forall e, e1 = Some e ->
     Bytes.Contains (Error e) "unknown revision" = true ->
     snd (latest modulePath st) = snd (query modulePath "master" st1) /\
     queried (snd (latest modulePath st))
     = (queried st ++ [(modulePath, "main"); (modulePath, "master")])%list /\
     (forall v2 st2, query modulePath "master" st1 = ((v2, None), st2) ->
                     latest modulePath st = ((v2, None), st2))) /\
  (forall e, e1 = Some e ->
     Bytes.Contains (Error e) "unknown revision" = false ->
     latest modulePath st = (("", Some e), st1) /\
     queried (snd (latest modulePath st))
     = (queried st ++ [(modulePath, "main")])%list) /\
  (forall v2 e' st2,
     (forall e, e1 = Some e ->
        Bytes.Contains (Error e) "unknown revision" = true) ->
     query modulePath "master" st1 = ((v2, Some e'), st2) ->
     Bytes.Contains (Error e') "unknown revision" = false ->
     latest modulePath st = (("", Some e'), st2)).
Proof.
  intros Q1.
  assert (queried st1 = (queried st ++ [(modulePath, "main")])%list) as L1.
  { pose proof (queryModuleVersion_queried modulePath "main" st) as L.
    now rewrite Q1 in L. }
  split; [| split].
  - intros e -> U. rewrite getLatestVersion_unfold, Q1, U.
    pose proof (queryModuleVersion_queried modulePath "master" st1) as L2.
    destruct (query modulePath "master" st1) as [[v2 [e'|]] st2].
    + simpl in L2.
      assert (queried st2
              = (queried st ++ [(modulePath, "main"); (modulePath, "master")])%list)
        as L by (now rewrite L2, L1, <- app_assoc).
      destruct (Bytes.Contains (Error e') "unknown revision");
        (split; [reflexivity | split; [exact L | discriminate]]).
    + simpl in L2. split; [reflexivity | split].
      * simpl. now rewrite L2, L1, <- app_assoc.
      * now intros ? ? [= <- <-].
  - intros e -> U. rewrite getLatestVersion_unfold, Q1, U. now split.
  - intros v2 e' st2 U1 Q2 U2. rewrite getLatestVersion_unfold, Q1.
    destruct e1 as [e|].
    + now rewrite (U1 e eq_refl), Q2, U2.
    + now rewrite Q2, U2.
Qed.

(** C10: when both branches resolve and one of the two versions has no run of
    14 digits, [getLatestVersion] fails with the no-timestamp error of the
    first such version, an error that is neither the no-branch error nor one
    made by the resolver. *)
Theorem getLatestVersion_no_timestamp modulePath st v1 st1 v2 st2 :
  query modulePath "main" st = ((v1, None), st1) ->
  query modulePath "master" st1 = ((v2, None), st2) ->
  (~ has_timestamp v1 ->
     latest modulePath st = (("", Some (noTimestampError Quote v1)), st2)) /\
  (has_timestamp v1 -> ~ has_timestamp v2 ->
     latest modulePath st = (("", Some (noTimestampError Quote v2)), st2)).
Proof.
  intros Q1 Q2. rewrite getLatestVersion_unfold, Q1, Q2. split.
  - intros N. now rewrite (newerVersion_missing_a Quote v1 v2 N).
  - intros H N.
    now rewrite (newerVersion_missing_b Quote v1 v2 H N).
Qed.

End ResolverFacts.

(** ** The aggregator *)

Section AggregatorFacts.

Variable Quote : string -> string.
Variable TrimSpace : string -> string.
Variable World : Type.
Variable goList : string -> World -> execOutcome * World.
Variable json_Unmarshal : string -> moduleInfo * option error.
Variable filepath_Clean : string -> string.
Variable os_ReadFile : string -> World -> (string * option error) * World.
Variable modfile_Parse : string -> string -> list Require * option error.

Let latest := getLatestVersion Quote TrimSpace World goList json_Unmarshal.
Let each := checkEach Quote TrimSpace World goList json_Unmarshal.
Let check := checkForUpdates Quote TrimSpace World goList json_Unmarshal.
Let resolveAll := latestVersions Quote TrimSpace World goList json_Unmarshal.

Lemma checkEach_cons dep rest updates st :
  each (dep :: rest) updates st =
  let '((v, err), st1) := latest (dep_module dep) st in
  match err with
  | Some e =>
      (([], Some (wrapError ("checking " ++ dep_module dep ++ ": " ++ Error e) e)),
       st1)
  | None =>
      if negb (String.eqb (dep_version dep) v)
      then each rest
             (updates ++ [mkUpdate (dep_module dep) (dep_version dep) v])%list st1
      else each rest updates st1
  end.
Proof.
  unfold each, latest. cbn [checkEach]. unfold bind, ret.
  destruct (getLatestVersion _ _ _ _ _ _ _) as [[v [e|]] st1];
    [reflexivity |].
  now destruct (negb (String.eqb (dep_version dep) v)).
Qed.

(** The loop over [pre ++ rest] is the loop over [pre], then, unless it
    stopped, the loop over [rest]. *)
Lemma checkEach_app pre rest updates st :
  each (pre ++ rest)%list updates st =
  let '((ups, err), st1) := each pre updates st in
  match err with
  | Some e => ((ups, Some e), st1)
  | None => each rest ups st1
  end.
Proof.
  revert updates st. induction pre as [|dep pre IH]; intros updates st.
  - reflexivity.
  - change ((dep :: pre) ++ rest)%list with (dep :: (pre ++ rest))%list.
    rewrite !checkEach_cons.
    destruct (latest (dep_module dep) st) as [[v [e|]] st1]; [reflexivity |].
    destruct (negb (String.eqb (dep_version dep) v)); apply IH.
Qed.

(** A failing run returns the nil list, whatever was appended before. *)
Lemma checkEach_error_nil deps updates st ups e st' :
  each deps updates st = ((ups, Some e), st') -> ups = [].
Proof.
  revert updates st. induction deps as [|dep deps IH]; intros updates st.
  - discriminate.
  - rewrite checkEach_cons.
    destruct (latest (dep_module dep) st) as [[v [e0|]] st1].
    + now intros [= <- _ _].
    + destruct (negb (String.eqb (dep_version dep) v)); apply IH.
Qed.

(** When every resolution succeeds the loop appends the differing pairs. *)
Lemma checkEach_all_resolved deps updates st rs st' :
  resolveAll (map dep_module deps) st = (rs, st') ->
  Forall (fun r => snd r = None) rs ->
  each deps updates st
  = ((updates ++ map asUpdate (filter differs (combine deps (map fst rs))),
      None)%list, st').
Proof.
  revert updates st rs. induction deps as [|dep deps IH]; intros updates st rs.
  - intros [= <- <-] _. simpl. now rewrite app_nil_r.
  - unfold resolveAll. cbn [map latestVersions]. unfold bind, ret.
    fold latest. fold resolveAll. rewrite checkEach_cons.
    destruct (latest (dep_module dep) st) as [[v err] st1].
    destruct (resolveAll (map dep_module deps) st1) as [rs' st2] eqn:R.
    intros [= <- <-] F. inversion F as [|r l Hr Hl]; subst.
    simpl in Hr. subst err. cbn [map fst combine filter].
    unfold differs at 1. cbn [fst snd].
    destruct (negb (String.eqb (dep_version dep) v)).
    + rewrite (IH _ _ _ R Hl), <- app_assoc. reflexivity.
    + now rewrite (IH _ _ _ R Hl).
Qed.

(** C6: when the dependencies before [dep] all resolve and the resolution of
    [dep] fails with [e], [checkForUpdates] returns the nil list together with
    [e] wrapped as "checking <module of dep>: ...", whatever updates the
    earlier dependencies gave; no failing run returns a non-empty list, and
    [checkGoMod] then returns neither dependencies nor updates. *)
Theorem checkForUpdates_fail_fast pre dep post st ups st1 v e st2 :
  check pre st = ((ups, None), st1) ->
  latest (dep_module dep) st1 = ((v, Some e), st2) ->
  check (pre ++ dep :: post)%list st
  = (([], Some (wrapError ("checking " ++ dep_module dep ++ ": " ++ Error e) e)),
     st2) /\
  (forall deps s0 ups0 e0 s1,
     check deps s0 = ((ups0, Some e0), s1) -> ups0 = []) /\
  (forall gomodPath includeIndirect s0,
     findPseudoVersionedDeps World filepath_Clean os_ReadFile modfile_Parse
       gomodPath includeIndirect s0
     = (((pre ++ dep :: post)%list, None), st) ->
     checkGoMod Quote TrimSpace World goList json_Unmarshal filepath_Clean
       os_ReadFile modfile_Parse gomodPath includeIndirect s0
     = (([], [],
         Some (wrapError ("checking " ++ dep_module dep ++ ": " ++ Error e) e)),
        st2)).
Proof.
  intros Pre Fail.
  assert (check (pre ++ dep :: post)%list st
          = (([], Some (wrapError
                          ("checking " ++ dep_module dep ++ ": " ++ Error e) e)),
             st2)) as Run.
  { unfold check, checkForUpdates. fold each. rewrite checkEach_app.
    unfold check, checkForUpdates in Pre. fold each in Pre. rewrite Pre.
    now rewrite checkEach_cons, Fail. }
  split; [exact Run | split].
  - intros deps s0 ups0 e0 s1. apply checkEach_error_nil.
  - intros gomodPath includeIndirect s0 Scan.
    assert (Nat.eqb (List.length (pre ++ dep :: post)%list) 0 = false) as NE
      by (destruct pre; reflexivity).
    unfold checkGoMod, bind, ret. rewrite Scan, NE. fold check.
    now rewrite Run.
Qed.

(** C7: when the resolution of every dependency succeeds, [checkForUpdates]
    returns, in the order of the dependencies, one update (module, current
    version, latest version) for exactly the dependencies whose version
    string is not equal to the resolved one. *)
Theorem checkForUpdates_reports_differences deps st rs st' :
  resolveAll (map dep_module deps) st = (rs, st') ->
  Forall (fun r => snd r = None) rs ->
  let updates := map asUpdate (filter differs (combine deps (map fst rs))) in
  check deps st = ((updates, None), st') /\
  (forall u, In u updates <->
     exists dep v, In (dep, v) (combine deps (map fst rs)) /\
                   dep_version dep <> v /\
                   u = mkUpdate (dep_module dep) (dep_version dep) v).
Proof.
  intros R F updates. split.
  - unfold check, checkForUpdates. fold each.
    now rewrite (checkEach_all_resolved deps [] st rs st' R F).
  - intros u. unfold updates. rewrite in_map_iff. split.
    + intros [[dep v] [<- I]]. apply filter_In in I. destruct I as [I D].
      exists dep, v. repeat split; [assumption |].
      unfold differs in D. cbn [fst snd] in D.
      apply negb_true_iff, String.eqb_neq in D. exact D.
    + intros [dep [v [I [D ->]]]]. exists (dep, v). split; [reflexivity |].
      apply filter_In. split; [assumption |].
      unfold differs. cbn [fst snd].
      now apply negb_true_iff, String.eqb_neq.
Qed.

End AggregatorFacts.

(** ** The program run in the concrete environment *)


(** C3 as worded, refuted.  With [main] unknown and [master] failing for
    another reason both branches were probed and none resolved, yet the error
    is not the no-branch error.  With [main] resolved and [master] failing for
    another reason exactly one branch resolved, yet no version comes back.
    With both resolved and [main] at a tagged version no version comes back
    either. *)
Lemma getLatestVersion_successes_counterexample :
  (snd (fst (Demo.queryModuleVersion "example.com/m" "main"
               (Demo.start
                  [("example.com/m@master",
                    ExitError "go: example.com/m@master: dial tcp: i/o timeout")])))
   <> None /\
   snd (fst (Demo.queryModuleVersion "example.com/m" "master"
               (snd (Demo.queryModuleVersion "example.com/m" "main"
                       (Demo.start
                          [("example.com/m@master",
                            ExitError
                              "go: example.com/m@master: dial tcp: i/o timeout")])))))
   <> None /\
   fst (Demo.getLatestVersion "example.com/m"
          (Demo.start
             [("example.com/m@master",
               ExitError "go: example.com/m@master: dial tcp: i/o timeout")]))
   = ("", Some (errorString "go: example.com/m@master: dial tcp: i/o timeout")) /\
   snd (fst (Demo.getLatestVersion "example.com/m"
               (Demo.start
                  [("example.com/m@master",
                    ExitError "go: example.com/m@master: dial tcp: i/o timeout")])))
   <> Some (errors_New "neither main nor master branch found")) /\
  (fst (Demo.queryModuleVersion "example.com/m" "main"
          (Demo.start
             [("example.com/m@main", Output "v0.0.0-20231201000000-def456def456");
              ("example.com/m@master",
               ExitError "go: example.com/m@master: dial tcp: i/o timeout")]))
   = ("v0.0.0-20231201000000-def456def456", None) /\
   fst (Demo.getLatestVersion "example.com/m"
          (Demo.start
             [("example.com/m@main", Output "v0.0.0-20231201000000-def456def456");
              ("example.com/m@master",
               ExitError "go: example.com/m@master: dial tcp: i/o timeout")]))
   = ("", Some (errorString "go: example.com/m@master: dial tcp: i/o timeout"))) /\
  (fst (Demo.queryModuleVersion "example.com/m" "main"
          (Demo.start
             [("example.com/m@main", Output "v1.2.3");
              ("example.com/m@master", Output "v0.0.0-20231201000000-def456def456")]))
   = ("v1.2.3", None) /\
   fst (Demo.queryModuleVersion "example.com/m" "master"
          (snd (Demo.queryModuleVersion "example.com/m" "main"
                  (Demo.start
                     [("example.com/m@main", Output "v1.2.3");
                      ("example.com/m@master",
                       Output "v0.0.0-20231201000000-def456def456")]))))
   = ("v0.0.0-20231201000000-def456def456", None) /\
   fst (Demo.getLatestVersion "example.com/m"
          (Demo.start
             [("example.com/m@main", Output "v1.2.3");
              ("example.com/m@master", Output "v0.0.0-20231201000000-def456def456")]))
   = ("", Some (errorString "no timestamp found in version <v1.2.3>"))).
Proof.
  split; [split; [| split; [| split]] | split; [split | repeat split]];
    try reflexivity; vm_compute; discriminate.
Qed.

Lemma getLatestVersion_by_successes_witness :
  fst (Demo.getLatestVersion "example.com/m" (Demo.start []))
  = ("", Some (errorString "neither main nor master branch found")) /\
  fst (Demo.getLatestVersion "go4.org/netipx"
         (Demo.start [("go4.org/netipx@master",
                       Output "v0.0.0-20231129151722-fdeea329fbba")]))
  = ("v0.0.0-20231129151722-fdeea329fbba", None) /\
  fst (Demo.getLatestVersion "example.com/m"
         (Demo.start
            [("example.com/m@main", Output "v0.0.0-20231101000000-aaaaaaaaaaaa");
             ("example.com/m@master", Output "v0.0.0-20231201000000-bbbbbbbbbbbb")]))
  = ("v0.0.0-20231201000000-bbbbbbbbbbbb", None).
Proof.
  unfold Demo.getLatestVersion. split; [| split].
  - rewrite (getLatestVersion_by_successes Demo.Quote Demo.TrimSpace Demo.World
               Demo.goList Demo.json_Unmarshal "example.com/m" (Demo.start [])
               _ (Some _) _ _ (Some _) _ eq_refl eq_refl);
      [reflexivity | unknown_revision | unknown_revision].
  - rewrite (getLatestVersion_by_successes Demo.Quote Demo.TrimSpace Demo.World
               Demo.goList Demo.json_Unmarshal "go4.org/netipx"
               (Demo.start [("go4.org/netipx@master",
                             Output "v0.0.0-20231129151722-fdeea329fbba")])
               _ (Some _) _ _ None _ eq_refl eq_refl);
      [reflexivity | unknown_revision | unknown_revision].
  - rewrite (getLatestVersion_by_successes Demo.Quote Demo.TrimSpace Demo.World
               Demo.goList Demo.json_Unmarshal "example.com/m"
               (Demo.start
                  [("example.com/m@main",
                    Output "v0.0.0-20231101000000-aaaaaaaaaaaa");
                   ("example.com/m@master",
                    Output "v0.0.0-20231201000000-bbbbbbbbbbbb")])
               _ None _ _ None _ eq_refl eq_refl);
      [reflexivity | unknown_revision | unknown_revision
       | apply has_timestamp_iff; reflexivity
       | apply has_timestamp_iff; reflexivity].
Defined.

Lemma getLatestVersion_fallback_or_abort_witness :
  (Demo.getLatestVersion "go4.org/netipx"
     (Demo.start [("go4.org/netipx@master",
                   Output "v0.0.0-20231129151722-fdeea329fbba")])
   = (("v0.0.0-20231129151722-fdeea329fbba", None),
      mkState [("go4.org/netipx@master",
                Output "v0.0.0-20231129151722-fdeea329fbba")]
        [("go4.org/netipx", "main"); ("go4.org/netipx", "master")])) /\
  (Demo.getLatestVersion "example.com/m"
     (Demo.start
        [("example.com/m@main", ExitError "fatal: unable to access the remote");
         ("example.com/m@master", Output "v0.0.0-20231201000000-def456def456")])
   = (("", Some (errorString "fatal: unable to access the remote")),
      mkState
        [("example.com/m@main", ExitError "fatal: unable to access the remote");
         ("example.com/m@master", Output "v0.0.0-20231201000000-def456def456")]
        [("example.com/m", "main")])) /\
  (fst (Demo.getLatestVersion "example.com/m"
          (Demo.start
             [("example.com/m@main", Output "v0.0.0-20231201000000-def456def456");
              ("example.com/m@master", Output "")]))
   = ("", Some (wrapError "parsing module info: unexpected end of JSON input"
                  (errorString "unexpected end of JSON input")))).
Proof.
  unfold Demo.getLatestVersion. split; [| split].
  - apply (proj1 (getLatestVersion_fallback_or_abort Demo.Quote Demo.TrimSpace
                    Demo.World Demo.goList Demo.json_Unmarshal "go4.org/netipx"
                    (Demo.start [("go4.org/netipx@master",
                                  Output "v0.0.0-20231129151722-fdeea329fbba")])
                    _ _ _ eq_refl) _ eq_refl eq_refl).
    reflexivity.
  - apply (proj1 (proj2 (getLatestVersion_fallback_or_abort Demo.Quote
                           Demo.TrimSpace Demo.World Demo.goList
                           Demo.json_Unmarshal "example.com/m"
                           (Demo.start
                              [("example.com/m@main",
                                ExitError "fatal: unable to access the remote");
                               ("example.com/m@master",
                                Output "v0.0.0-20231201000000-def456def456")])
                           _ _ _ eq_refl)) _ eq_refl eq_refl).
  - destruct (getLatestVersion_fallback_or_abort Demo.Quote
                Demo.TrimSpace Demo.World Demo.goList
                Demo.json_Unmarshal "example.com/m"
                (Demo.start
                   [("example.com/m@main",
                     Output "v0.0.0-20231201000000-def456def456");
                    ("example.com/m@master", Output "")])
                _ _ _ eq_refl) as [_ [_ Abort]].
    rewrite (Abort _ _ _ ltac:(unknown_revision) eq_refl eq_refl).
    reflexivity.
Defined.

Lemma getLatestVersion_no_timestamp_witness :
  fst (Demo.getLatestVersion "example.com/m"
         (Demo.start
            [("example.com/m@main", Output "v1.2.3");
             ("example.com/m@master", Output "v0.0.0-20231201000000-def456def456")]))
  = ("", Some (errorString "no timestamp found in version <v1.2.3>")) /\
  fst (Demo.getLatestVersion "example.com/m"
         (Demo.start
            [("example.com/m@main", Output "v0.0.0-20231201000000-def456def456");
             ("example.com/m@master", Output "v2.0.0")]))
  = ("", Some (errorString "no timestamp found in version <v2.0.0>")).
Proof.
  unfold Demo.getLatestVersion. split.
  - rewrite (proj1 (getLatestVersion_no_timestamp Demo.Quote Demo.TrimSpace
                      Demo.World Demo.goList Demo.json_Unmarshal "example.com/m"
                      (Demo.start
                         [("example.com/m@main", Output "v1.2.3");
                          ("example.com/m@master",
                           Output "v0.0.0-20231201000000-def456def456")])
                      _ _ _ _ eq_refl eq_refl));
      [reflexivity | apply no_timestamp_iff; reflexivity].
  - rewrite (proj2 (getLatestVersion_no_timestamp Demo.Quote Demo.TrimSpace
                      Demo.World Demo.goList Demo.json_Unmarshal "example.com/m"
                      (Demo.start
                         [("example.com/m@main",
                           Output "v0.0.0-20231201000000-def456def456");
                          ("example.com/m@master", Output "v2.0.0")])
                      _ _ _ _ eq_refl eq_refl));
      [reflexivity | apply has_timestamp_iff; reflexivity
       | apply no_timestamp_iff; reflexivity].
Defined.

Lemma checkForUpdates_fail_fast_witness :
  fst (Demo.checkForUpdates
         [mkDependency "example.com/b" "v0.0.0-20231101000000-abc123abc123"]
         (Demo.start
            [("example.com/b@main", Output "v0.0.0-20231201000000-def456def456");
             ("example.com/c@main", ExitError "fatal: unable to access the remote")]))
  = ([mkUpdate "example.com/b" "v0.0.0-20231101000000-abc123abc123"
        "v0.0.0-20231201000000-def456def456"], None) /\
  fst (Demo.checkForUpdates
         [mkDependency "example.com/b" "v0.0.0-20231101000000-abc123abc123";
          mkDependency "example.com/c" "v0.0.0-20231101000000-abc123abc123";
          mkDependency "example.com/d" "v0.0.0-20231101000000-abc123abc123"]
         (Demo.start
            [("example.com/b@main", Output "v0.0.0-20231201000000-def456def456");
             ("example.com/c@main", ExitError "fatal: unable to access the remote")]))
  = ([], Some (wrapError
                 "checking example.com/c: fatal: unable to access the remote"
                 (errorString "fatal: unable to access the remote"))).
Proof.
  split; [reflexivity |].
  exact (f_equal fst
           (proj1 (checkForUpdates_fail_fast Demo.Quote Demo.TrimSpace Demo.World
                    Demo.goList Demo.json_Unmarshal Demo.filepath_Clean
                    Demo.os_ReadFile (Demo.modfile_Parse [])
                    [mkDependency "example.com/b"
                       "v0.0.0-20231101000000-abc123abc123"]
                    (mkDependency "example.com/c"
                       "v0.0.0-20231101000000-abc123abc123")
                    [mkDependency "example.com/d"
                       "v0.0.0-20231101000000-abc123abc123"]
                    (Demo.start
                       [("example.com/b@main",
                         Output "v0.0.0-20231201000000-def456def456");
                        ("example.com/c@main",
                         ExitError "fatal: unable to access the remote")])
                    _ _ _ _ _ eq_refl eq_refl))).
Defined.

Lemma checkForUpdates_reports_differences_witness :
  fst (Demo.checkForUpdates
         [mkDependency "example.com/a" "v0.0.0-20231101000000-abc123abc123";
          mkDependency "example.com/b" "v0.0.0-20231101000000-abc123abc123"]
         (Demo.start
            [("example.com/a@main", Output "v0.0.0-20231101000000-abc123abc123");
             ("example.com/b@main", Output "v0.0.0-20231201000000-def456def456")]))
  = ([mkUpdate "example.com/b" "v0.0.0-20231101000000-abc123abc123"
        "v0.0.0-20231201000000-def456def456"], None).
Proof.
  unfold Demo.checkForUpdates.
  rewrite (proj1 (checkForUpdates_reports_differences Demo.Quote Demo.TrimSpace
                    Demo.World Demo.goList Demo.json_Unmarshal
                    [mkDependency "example.com/a"
                       "v0.0.0-20231101000000-abc123abc123";
                     mkDependency "example.com/b"
                       "v0.0.0-20231101000000-abc123abc123"]
                    (Demo.start
                       [("example.com/a@main",
                         Output "v0.0.0-20231101000000-abc123abc123");
                        ("example.com/b@main",
                         Output "v0.0.0-20231201000000-def456def456")])
                    _ _ eq_refl ltac:(repeat constructor))).
  reflexivity.
Defined.

(** * Further properties of the code *)

(** ** Versions and timestamps *)

Lemma has_timestamp_length (s : string) :
  has_timestamp s -> 14 <= String.length s.
Proof.
  intros [p [ts [q [-> [L _]]]]]. rewrite !length_append. lia.
Qed.

Lemma pseudo_version_shape_length (s : string) :
  pseudo_version_shape s -> 27 <= String.length s.
Proof.
  intros [p [ts [h [-> [[L1 _] [L2 _]]]]]]. rewrite !length_append.
  simpl. lia.
Qed.

Lemma endsWithDigit_append (a b : string) :
  b <> "" -> endsWithDigit (a ++ b) = endsWithDigit b.
Proof.
  intros N. induction a as [|c a IH]; [reflexivity |].
  cbn [append endsWithDigit]. rewrite IH.
  destruct (a ++ b) eqn:E; [| reflexivity].
  destruct a; simpl in E; [contradiction | discriminate].
Qed.

Lemma endsWithDigit_digits (s : string) :
  s <> "" -> Bytes.all decimal_digit s = true -> endsWithDigit s = true.
Proof.
  induction s as [|c s IH]; intros N A; [contradiction |].
  cbn [Bytes.all] in A. apply andb_true_iff in A. destruct A as [C A].
  destruct s as [|c' s]; [exact C |].
  change (endsWithDigit (String c (String c' s)))
    with (endsWithDigit (String c' s)).
  apply IH; [discriminate | exact A].
Qed.

(** A run of 14 digits that starts where [p] ends is the leftmost one when
    [p] holds no run of its own and does not end with a digit. *)
Lemma leftmost_after_prefix (p ts q p0 ts0 q0 : string) :
  p ++ ts ++ q = p0 ++ ts0 ++ q0 ->
  digit_run 14 ts -> digit_run 14 ts0 ->
  ~ has_timestamp p -> endsWithDigit p = false ->
  String.length p0 <= String.length p ->
  ts0 = ts.
Proof.
  intros E [L D] [L0 D0] N EW Le. symmetry in E.
  destruct (append_split_right _ _ _ _ E Le) as [p' [-> E']].
  destruct p' as [|c p'].
  - simpl in E'. destruct (append_inj _ _ _ _ E') as [-> _]; [lia | reflexivity].
  - exfalso.
    destruct (Nat.le_gt_cases (String.length ts0) (String.length (String c p')))
      as [G | G].
    + destruct (append_split_right _ _ _ _ E' G) as [r [Ep _]].
      apply N. exists p0, ts0, r. rewrite Ep. now split.
    + assert (String.length (String c p') <= String.length ts0) as G' by lia.
      symmetry in E'.
      destruct (append_split_right _ _ _ _ E' G') as [r [-> _]].
      rewrite all_append in D0. apply andb_true_iff in D0.
      destruct D0 as [D0 _].
      assert (String c p' <> "") as NE by discriminate.
      rewrite (endsWithDigit_append _ _ NE) in EW.
      rewrite (endsWithDigit_digits _ NE D0) in EW.
      discriminate.
Qed.

Section VersionExtras.

Variable Quote : string -> string.

Lemma extractTimestamp_after_prefix (p ts q : string) :
  digit_run 14 ts -> ~ has_timestamp p -> endsWithDigit p = false ->
  extractTimestamp Quote (p ++ ts ++ q) = (ts, None).
Proof.
  intros D N EW.
  destruct (extractTimestamp_cases Quote (p ++ ts ++ q))
    as [[p0 [ts0 [q0 [E [D0 [Left R]]]]]] | [No _]].
  - rewrite R. f_equal.
    apply (leftmost_after_prefix p ts q p0 ts0 q0 E D D0 N EW).
    apply (Left p ts q eq_refl D).
  - exfalso. apply No. now exists p, ts, q.
Qed.

(** The greater of two timestamps, read as numbers. *)
Lemma newerVersion_max (a b : string) :
  has_timestamp a -> has_timestamp b ->
  let ts := fun v => fst (extractTimestamp Quote v) in
  let r := fst (newerVersion Quote a b) in
  snd (newerVersion Quote a b) = None /\
  (r = a \/ r = b) /\
  decimalValue (ts r) = N.max (decimalValue (ts a)) (decimalValue (ts b)).
Proof.
  intros Ha Hb ts r. unfold r, ts.
  rewrite (newerVersion_found Quote a b Ha Hb), (timestamp_order Quote a b Ha Hb).
  cbn [fst snd]. split; [reflexivity |].
  destruct (N.leb_spec (decimalValue (fst (extractTimestamp Quote b)))
              (decimalValue (fst (extractTimestamp Quote a)))) as [Le | Lt].
  - split; [now left | now rewrite N.max_l].
  - split; [now right | rewrite N.max_r; [reflexivity | lia]].
Qed.

End VersionExtras.

(** X1: on a version made of a prefix that holds no run of 14 digits and does
    not end with a digit, then 14 digits, a hyphen and a hash -- the layout
    of every pseudo-version the [go] tool writes -- [pseudoVersionRe] matches
    and [extractTimestamp] returns those 14 digits, the ones the match
    ends with. *)
Theorem extractTimestamp_agrees_with_pseudoVersionRe
    (Quote : string -> string) (p ts h : string) :
  digit_run 14 ts -> hex_run 12 h ->
  ~ has_timestamp p -> endsWithDigit p = false ->
  MatchString pseudoVersionRe (p ++ ts ++ "-" ++ h) = true /\
  extractTimestamp Quote (p ++ ts ++ "-" ++ h) = (ts, None).
Proof.
  intros D X N EW. split.
  - apply MatchString_pseudoVersionRe. now exists p, ts, h.
  - now apply extractTimestamp_after_prefix.
Qed.

Lemma extractTimestamp_agrees_with_pseudoVersionRe_witness :
  MatchString pseudoVersionRe "v1.1.1-0.20251215205057-2f3252140e00" = true /\
  extractTimestamp Demo.Quote "v1.1.1-0.20251215205057-2f3252140e00"
  = ("20251215205057", None).
Proof.
  apply (extractTimestamp_agrees_with_pseudoVersionRe Demo.Quote
           "v1.1.1-0." "20251215205057" "2f3252140e00").
  - split; reflexivity.
  - split; reflexivity.
  - apply no_timestamp_iff. reflexivity.
  - reflexivity.
Defined.

(** X2: a version shorter than 27 bytes is never matched by
    [pseudoVersionRe], and [extractTimestamp] fails on one shorter than 14
    bytes, the empty string included. *)
Theorem short_versions_rejected (Quote : string -> string) (s : string) :
  (String.length s < 27 -> MatchString pseudoVersionRe s = false) /\
  (String.length s < 14 ->
   extractTimestamp Quote s = ("", Some (noTimestampError Quote s))).
Proof.
  split; intros L.
  - destruct (MatchString pseudoVersionRe s) eqn:E; [| reflexivity].
    apply MatchString_pseudoVersionRe, pseudo_version_shape_length in E. lia.
  - apply extractTimestamp_missing. intros H.
    apply has_timestamp_length in H. lia.
Qed.

Lemma short_versions_rejected_witness :
  MatchString pseudoVersionRe "-20231129151722-fdeea329fb" = false /\
  extractTimestamp Demo.Quote ""
  = ("", Some (errorString "no timestamp found in version <>")).
Proof.
  split.
  - apply (proj1 (short_versions_rejected Demo.Quote "-20231129151722-fdeea329fb")).
    simpl. lia.
  - apply (proj2 (short_versions_rejected Demo.Quote "")). simpl. lia.
Defined.

(** X3: on two versions that both hold a timestamp [newerVersion] never
    fails, returns one of its two arguments, the timestamp of the result is
    the greater of the two as a number, and swapping the arguments may change
    the version returned but not its timestamp. *)
Theorem newerVersion_picks_latest (Quote : string -> string) (a b : string) :
  has_timestamp a -> has_timestamp b ->
  snd (newerVersion Quote a b) = None /\
  (fst (newerVersion Quote a b) = a \/ fst (newerVersion Quote a b) = b) /\
  decimalValue (fst (extractTimestamp Quote (fst (newerVersion Quote a b))))
  = N.max (decimalValue (fst (extractTimestamp Quote a)))
          (decimalValue (fst (extractTimestamp Quote b))) /\
  fst (extractTimestamp Quote (fst (newerVersion Quote a b)))
  = fst (extractTimestamp Quote (fst (newerVersion Quote b a))).
Proof.
  intros Ha Hb.
  destruct (newerVersion_max Quote a b Ha Hb) as [S [O Mx]].
  split; [exact S | split; [exact O | split; [exact Mx |]]].
  rewrite (newerVersion_found Quote a b Ha Hb),
    (newerVersion_found Quote b a Hb Ha).
  cbn [fst]. unfold Bytes.geb.
  destruct (String.leb (fst (extractTimestamp Quote b))
              (fst (extractTimestamp Quote a))) eqn:BA;
    destruct (String.leb (fst (extractTimestamp Quote a))
                (fst (extractTimestamp Quote b))) eqn:AB;
    try reflexivity.
  - now rewrite (String.leb_antisym _ _ AB BA).
  - destruct (String.leb_total (fst (extractTimestamp Quote a))
                (fst (extractTimestamp Quote b))); congruence.
Qed.

Lemma newerVersion_picks_latest_witness :
  snd (newerVersion Demo.Quote "v0.0.0-20231101000000-aaaaaaaaaaaa"
         "v0.0.0-20231201000000-bbbbbbbbbbbb") = None /\
  (fst (newerVersion Demo.Quote "v0.0.0-20231101000000-aaaaaaaaaaaa"
          "v0.0.0-20231201000000-bbbbbbbbbbbb")
   = "v0.0.0-20231101000000-aaaaaaaaaaaa" \/
   fst (newerVersion Demo.Quote "v0.0.0-20231101000000-aaaaaaaaaaaa"
          "v0.0.0-20231201000000-bbbbbbbbbbbb")
   = "v0.0.0-20231201000000-bbbbbbbbbbbb") /\
  decimalValue
    (fst (extractTimestamp Demo.Quote
            (fst (newerVersion Demo.Quote "v0.0.0-20231101000000-aaaaaaaaaaaa"
                    "v0.0.0-20231201000000-bbbbbbbbbbbb"))))
  = N.max
      (decimalValue
         (fst (extractTimestamp Demo.Quote "v0.0.0-20231101000000-aaaaaaaaaaaa")))
      (decimalValue
         (fst (extractTimestamp Demo.Quote "v0.0.0-20231201000000-bbbbbbbbbbbb"))) /\
  fst (extractTimestamp Demo.Quote
         (fst (newerVersion Demo.Quote "v0.0.0-20231101000000-aaaaaaaaaaaa"
                 "v0.0.0-20231201000000-bbbbbbbbbbbb")))
  = fst (extractTimestamp Demo.Quote
           (fst (newerVersion Demo.Quote "v0.0.0-20231201000000-bbbbbbbbbbbb"
                   "v0.0.0-20231101000000-aaaaaaaaaaaa"))).
Proof.
  apply (newerVersion_picks_latest Demo.Quote
           "v0.0.0-20231101000000-aaaaaaaaaaaa"
           "v0.0.0-20231201000000-bbbbbbbbbbbb");
    apply has_timestamp_iff; reflexivity.
Defined.

(** ** Substrings *)

Lemma prefix_iff (a s : string) :
  String.prefix a s = true <-> exists q, s = a ++ q.
Proof.
  revert s. induction a as [|c a IH]; intros s.
  - destruct s; simpl; split; try reflexivity; intros _; eexists; reflexivity.
  - destruct s as [|d s]; simpl.
    + split; [discriminate | intros [q E]; discriminate].
    + destruct (ascii_dec c d) as [-> | Ne].
      * rewrite IH. split; intros [q E]; exists q; [now rewrite E |].
        now injection E.
      * split; [discriminate |]. intros [q E]. injection E as E _.
        now destruct Ne.
Qed.

Lemma Contains_unfold (s substr : string) :
  Bytes.Contains s substr =
  if String.prefix substr s then true
  else match s with
       | EmptyString => false
       | String _ s' => Bytes.Contains s' substr
       end.
Proof. destruct s; reflexivity. Qed.

(** [Bytes.Contains] holds exactly when the substring stands at some offset. *)
Lemma Contains_iff (s substr : string) :
  Bytes.Contains s substr = true <-> exists p q, s = p ++ substr ++ q.
Proof.
  split.
  - induction s as [|c s IH]; rewrite Contains_unfold;
      destruct (String.prefix substr _) eqn:P.
    + intros _. apply prefix_iff in P. destruct P as [q E]. now exists "", q.
    + discriminate.
    + intros _. apply prefix_iff in P. destruct P as [q E]. now exists "", q.
    + intros H. destruct (IH H) as [p [q ->]]. now exists (String c p), q.
  - intros [p [q ->]]. induction p as [|c p IH]; rewrite Contains_unfold.
    + assert (String.prefix substr ("" ++ substr ++ q) = true) as ->
        by (apply prefix_iff; now exists q).
      reflexivity.
    + destruct (String.prefix substr _); [reflexivity | exact IH].
Qed.

(** ** The resolver, further *)

Section ResolverExtras.

Variable Quote : string -> string.
Variable TrimSpace : string -> string.
Variable World : Type.
Variable goList : string -> World -> execOutcome * World.
Variable json_Unmarshal : string -> moduleInfo * option error.

Let query := queryModuleVersion TrimSpace World goList json_Unmarshal.
Let latest := getLatestVersion Quote TrimSpace World goList json_Unmarshal.

Lemma extractTimestamp_error (s v : string) (e : error) :
  extractTimestamp Quote s = (v, Some e) ->
  v = "" /\ e = noTimestampError Quote s /\ ~ has_timestamp s.
Proof.
  intros E. destruct (has_timestamp_dec Quote s) as [H | N].
  - destruct (extractTimestamp_found Quote s H) as [ts [_ F]]. congruence.
  - rewrite (extractTimestamp_missing Quote s N) in E.
    injection E as <- <-. now repeat split.
Qed.

Lemma newerVersion_ok (a b v : string) :
  newerVersion Quote a b = (v, None) -> v = a \/ v = b.
Proof.
  unfold newerVersion.
  destruct (extractTimestamp Quote a) as [tsA [e|]]; [discriminate |].
  destruct (extractTimestamp Quote b) as [tsB [e|]]; [discriminate |].
  destruct (Bytes.geb tsA tsB); intros [= <-]; [now left | now right].
Qed.

Lemma newerVersion_error (a b v : string) (e : error) :
  newerVersion Quote a b = (v, Some e) ->
  v = "" /\
  ((e = noTimestampError Quote a /\ ~ has_timestamp a) \/
   (e = noTimestampError Quote b /\ ~ has_timestamp b)).
Proof.
  unfold newerVersion.
  destruct (extractTimestamp Quote a) as [tsA [ea|]] eqn:Ea.
  - intros [= <- <-]. apply extractTimestamp_error in Ea.
    destruct Ea as [_ [Ee Na]]. split; [reflexivity | left; now split].
  - destruct (extractTimestamp Quote b) as [tsB [eb|]] eqn:Eb.
    + intros [= <- <-]. apply extractTimestamp_error in Eb.
      destruct Eb as [_ [Ee Nb]]. split; [reflexivity | right; now split].
    + destruct (Bytes.geb tsA tsB); discriminate.
Qed.

Lemma queryModuleVersion_error modulePath branch st v e st' :
  query modulePath branch st = ((v, Some e), st') -> v = "".
Proof.
  unfold query, queryModuleVersion.
  destruct (goList _ _) as [[output | stderr | err] w].
  - destruct (json_Unmarshal output) as [info [e0|]]; [| discriminate].
    now intros [= <- _ _].
  - now intros [= <- _ _].
  - now intros [= <- _ _].
Qed.

Lemma getLatestVersion_error modulePath st v e st' :
  latest modulePath st = ((v, Some e), st') -> v = "".
Proof.
  unfold latest. rewrite getLatestVersion_unfold. fold query.
  destruct (query modulePath "main" st) as [[v1 [e1|]] st1].
  - destruct (Bytes.Contains (Error e1) "unknown revision").
    + destruct (query modulePath "master" st1) as [[v2 [e2|]] st2];
        [| discriminate].
      destruct (Bytes.Contains (Error e2) "unknown revision");
        now intros [= <- _ _].
    + now intros [= <- _ _].
  - destruct (query modulePath "master" st1) as [[v2 [e2|]] st2].
    + destruct (Bytes.Contains (Error e2) "unknown revision");
        [discriminate | now intros [= <- _ _]].
    + destruct (newerVersion Quote v1 v2) as [r [e'|]] eqn:N; [| discriminate].
      apply newerVersion_error in N. destruct N as [-> _].
      now intros [= <- _ _].
Qed.

(** The pairs [getLatestVersion] hands to the resolver. *)
Lemma getLatestVersion_queried modulePath st :
  queried (snd (latest modulePath st))
  = (queried st ++
     (modulePath, "main") ::
     match snd (fst (query modulePath "main" st)) with
     | Some e =>
         if Bytes.Contains (Error e) "unknown revision"
         then [(modulePath, "master")] else []
     | None => [(modulePath, "master")]
     end)%list.
Proof.
  unfold latest. rewrite getLatestVersion_unfold. fold query.
  pose proof (queryModuleVersion_queried TrimSpace World goList json_Unmarshal
                modulePath "main" st) as L1. fold query in L1.
  destruct (query modulePath "main" st) as [[v1 e1] st1]. cbn [fst snd] in *.
  pose proof (queryModuleVersion_queried TrimSpace World goList json_Unmarshal
                modulePath "master" st1) as L2. fold query in L2.
  assert (queried (snd (query modulePath "master" st1))
          = (queried st ++ [(modulePath, "main"); (modulePath, "master")])%list)
    as L by (now rewrite L2, L1, <- app_assoc).
  destruct e1 as [e1|].
  - destruct (Bytes.Contains (Error e1) "unknown revision"); [| exact L1].
    destruct (query modulePath "master" st1) as [[v2 [e2|]] st2];
      [| exact L].
    destruct (Bytes.Contains (Error e2) "unknown revision"); exact L.
  - destruct (query modulePath "master" st1) as [[v2 [e2|]] st2].
    + destruct (Bytes.Contains (Error e2) "unknown revision"); exact L.
    + exact L.
Qed.

(** X4: a successful [getLatestVersion] has queried both branches, and the
    version it returns is one that [main] or [master] resolved to: it is
    never made up. *)
Theorem getLatestVersion_returns_resolved modulePath st v st' :
  latest modulePath st = ((v, None), st') ->
  st' = snd (query modulePath "master" (snd (query modulePath "main" st))) /\
  (fst (query modulePath "main" st) = (v, None) \/
   fst (query modulePath "master" (snd (query modulePath "main" st)))
   = (v, None)).
Proof.
  unfold latest. rewrite getLatestVersion_unfold. fold query.
  destruct (query modulePath "main" st) as [[v1 [e1|]] st1]; cbn [fst snd].
  - destruct (Bytes.Contains (Error e1) "unknown revision"); [| discriminate].
    destruct (query modulePath "master" st1) as [[v2 [e2|]] st2]; cbn [fst snd].
    + destruct (Bytes.Contains (Error e2) "unknown revision"); discriminate.
    + intros [= <- <-]. split; [reflexivity | now right].
  - destruct (query modulePath "master" st1) as [[v2 [e2|]] st2]; cbn [fst snd].
    + destruct (Bytes.Contains (Error e2) "unknown revision"); [| discriminate].
      intros [= <- <-]. split; [reflexivity | now left].
    + destruct (newerVersion Quote v1 v2) as [r [e'|]] eqn:N; [discriminate |].
      intros [= <- <-]. split; [reflexivity |].
      destruct (newerVersion_ok _ _ _ N) as [-> | ->]; [now left | now right].
Qed.

(** X5: an error returned by [getLatestVersion] is of one of three kinds: the
    error of a query whose text does not contain "unknown revision", returned
    as it is; the no-branch error, when both queries failed with an unknown
    revision; the no-timestamp error of a resolved version without a run of
    14 digits, when both branches resolved.  An unknown-revision error of the
    resolver is never returned. *)
Theorem getLatestVersion_error_kinds modulePath st v e st' :
  latest modulePath st = ((v, Some e), st') ->
  let r1 := query modulePath "main" st in
  let r2 := query modulePath "master" (snd r1) in
  (snd (fst r1) = Some e /\ st' = snd r1 /\
   Bytes.Contains (Error e) "unknown revision" = false) \/
  (snd (fst r2) = Some e /\ st' = snd r2 /\
   Bytes.Contains (Error e) "unknown revision" = false) \/
  (e = errors_New "neither main nor master branch found" /\ st' = snd r2 /\
   (exists e1 e2, snd (fst r1) = Some e1 /\ snd (fst r2) = Some e2 /\
      Bytes.Contains (Error e1) "unknown revision" = true /\
      Bytes.Contains (Error e2) "unknown revision" = true)) \/
  (snd (fst r1) = None /\ snd (fst r2) = None /\ st' = snd r2 /\
   ((e = noTimestampError Quote (fst (fst r1)) /\
     ~ has_timestamp (fst (fst r1))) \/
    (e = noTimestampError Quote (fst (fst r2)) /\
     ~ has_timestamp (fst (fst r2))))).
Proof.
  unfold latest. rewrite getLatestVersion_unfold. fold query.
  destruct (query modulePath "main" st) as [[v1 [e1|]] st1]; cbn [fst snd].
  - destruct (Bytes.Contains (Error e1) "unknown revision") eqn:U1.
    + destruct (query modulePath "master" st1) as [[v2 [e2|]] st2];
        cbn [fst snd]; [| discriminate].
      destruct (Bytes.Contains (Error e2) "unknown revision") eqn:U2.
      * intros [= _ <- <-]. right. right. left.
        split; [reflexivity | split; [reflexivity |]].
        now exists e1, e2.
      * intros [= _ <- <-]. right. left. now repeat split.
    + intros [= _ <- <-]. left. now repeat split.
  - destruct (query modulePath "master" st1) as [[v2 [e2|]] st2];
      cbn [fst snd].
    + destruct (Bytes.Contains (Error e2) "unknown revision") eqn:U2;
        [discriminate |].
      intros [= _ <- <-]. right. left. now repeat split.
    + destruct (newerVersion Quote v1 v2) as [r [e'|]] eqn:N; [| discriminate].
      intros [= _ <- <-]. right. right. right.
      apply newerVersion_error in N. destruct N as [_ N].
      now repeat split.
Qed.

(** X6: [getLatestVersion] queries [main] of the module first and then
    [master] of the module, and nothing else; [master] is left out exactly
    when [main] failed with an error whose text holds "unknown revision" at
    no offset. *)
Theorem getLatestVersion_queries modulePath st :
  exists tried,
    queried (snd (latest modulePath st)) = (queried st ++ tried)%list /\
    (tried = [(modulePath, "main")] \/
     tried = [(modulePath, "main"); (modulePath, "master")]) /\
    (tried = [(modulePath, "main")] <->
     exists e, snd (fst (query modulePath "main" st)) = Some e /\
               ~ exists p q, Error e = p ++ "unknown revision" ++ q).
Proof.
  rewrite getLatestVersion_queried.
  destruct (snd (fst (query modulePath "main" st))) as [e|].
  - destruct (Bytes.Contains (Error e) "unknown revision") eqn:U.
    + eexists. split; [reflexivity |]. split; [now right |].
      split; [discriminate |]. intros [e' [[= <-] N]]. exfalso. apply N.
      now apply Contains_iff.
    + eexists. split; [reflexivity |]. split; [now left |].
      split; [| reflexivity]. intros _. exists e. split; [reflexivity |].
      intros C. apply Contains_iff in C. congruence.
  - eexists. split; [reflexivity |]. split; [now right |].
    split; [discriminate |]. now intros [e' [[=] _]].
Qed.

End ResolverExtras.

(** ** The scanner, the aggregator and [checkGoMod], further *)

Section PipelineExtras.

Variable Quote : string -> string.
Variable TrimSpace : string -> string.
Variable World : Type.
Variable goList : string -> World -> execOutcome * World.
Variable json_Unmarshal : string -> moduleInfo * option error.
Variable filepath_Clean : string -> string.
Variable os_ReadFile : string -> World -> (string * option error) * World.
Variable modfile_Parse : string -> string -> list Require * option error.

Local Abbreviation latest :=
  (getLatestVersion Quote TrimSpace World goList json_Unmarshal).
Local Abbreviation each := (checkEach Quote TrimSpace World goList json_Unmarshal).
Local Abbreviation check :=
  (checkForUpdates Quote TrimSpace World goList json_Unmarshal).
Local Abbreviation resolveAll :=
  (latestVersions Quote TrimSpace World goList json_Unmarshal).
Local Abbreviation scan :=
  (findPseudoVersionedDeps World filepath_Clean os_ReadFile modfile_Parse).
Local Abbreviation gomod :=
  (checkGoMod Quote TrimSpace World goList json_Unmarshal filepath_Clean
     os_ReadFile modfile_Parse).

Lemma latestVersions_cons modulePath rest st :
  resolveAll (modulePath :: rest) st =
  let '(r, st1) := latest modulePath st in
  let '(rs, st2) := resolveAll rest st1 in
  (r :: rs, st2).
Proof.
  cbn [latestVersions]. unfold bind, ret.
  destruct (latest modulePath st) as [r st1].
  now destruct (resolveAll rest st1) as [rs st2].
Qed.

(** A run of the loop without error has resolved every dependency. *)
Lemma checkEach_ok_resolved deps updates st ups st' :
  each deps updates st = ((ups, None), st') ->
  Forall (fun r => snd r = None) (fst (resolveAll (map dep_module deps) st)) /\
  snd (resolveAll (map dep_module deps) st) = st'.
Proof.
  revert updates st. induction deps as [|dep deps IH]; intros updates st.
  - intros [= _ <-]. split; [constructor | reflexivity].
  - rewrite checkEach_cons. cbn [map]. rewrite latestVersions_cons.
    destruct (latest (dep_module dep) st) as [[v [e|]] st1]; [discriminate |].
    intros Run.
    assert (Forall (fun r => snd r = None)
              (fst (resolveAll (map dep_module deps) st1)) /\
            snd (resolveAll (map dep_module deps) st1) = st') as [F S].
    { destruct (negb (String.eqb (dep_version dep) v)); exact (IH _ _ Run). }
    destruct (resolveAll (map dep_module deps) st1) as [rs st2].
    cbn [fst snd] in *. split; [now constructor | exact S].
Qed.

(** What a run without error returns. *)
Lemma checkForUpdates_ok deps st ups st' :
  check deps st = ((ups, None), st') ->
  ups = map asUpdate
          (filter differs
             (combine deps
                (map fst (fst (resolveAll (map dep_module deps) st))))).
Proof.
  intros Run. unfold checkForUpdates in Run.
  destruct (checkEach_ok_resolved _ _ _ _ _ Run) as [F S].
  pose proof (checkEach_all_resolved Quote TrimSpace World goList
                json_Unmarshal deps [] st
                (fst (resolveAll (map dep_module deps) st)) st') as A.
  rewrite A in Run.
  - now injection Run as <-.
  - rewrite <- S. now destruct (resolveAll (map dep_module deps) st).
  - exact F.
Qed.

Lemma checkForUpdates_sound deps st ups st' :
  check deps st = ((ups, None), st') ->
  List.length ups <= List.length deps /\
  forall u, In u ups ->
    In (mkDependency (upd_module u) (upd_current u)) deps /\
    upd_latest u <> upd_current u.
Proof.
  intros Run. rewrite (checkForUpdates_ok _ _ _ _ Run). split.
  - rewrite length_map.
    etransitivity; [apply filter_length_le |].
    rewrite length_combine. apply Nat.le_min_l.
  - intros u I. apply in_map_iff in I. destruct I as [[dep v] [<- I]].
    apply filter_In in I. destruct I as [I D].
    apply in_combine_l in I. unfold asUpdate. cbn [fst snd upd_module
      upd_current upd_latest]. split.
    + now destruct dep.
    + unfold differs in D. cbn [fst snd] in D.
      apply negb_true_iff, String.eqb_neq in D. congruence.
Qed.



Lemma findPseudoVersionedDeps_queried gomodPath includeIndirect st :
  queried (snd (scan gomodPath includeIndirect st)) = queried st.
Proof.
  unfold findPseudoVersionedDeps.
  destruct (os_ReadFile _ _) as [[data [e|]] w]; [reflexivity |].
  destruct (modfile_Parse gomodPath data) as [reqs [e|]]; reflexivity.
Qed.

Lemma findPseudoVersionedDeps_error gomodPath includeIndirect st deps e st' :
  scan gomodPath includeIndirect st = ((deps, Some e), st') -> deps = [].
Proof.
  unfold findPseudoVersionedDeps.
  destruct (os_ReadFile _ _) as [[data [e0|]] w]; [now intros [= <- _ _] |].
  destruct (modfile_Parse gomodPath data) as [reqs [e0|]];
    [now intros [= <- _ _] | discriminate].
Qed.

Lemma scanned_shape gomodPath includeIndirect st deps err st' d :
  scan gomodPath includeIndirect st = ((deps, err), st') -> In d deps ->
  pseudo_version_shape (dep_version d).
Proof.
  intros Run I.
  destruct (findPseudoVersionedDeps_image _ _ _ _ _ _ _ _ _ _ Run)
    as [reqs ->].
  apply in_map_iff in I. destruct I as [req [<- F]].
  apply filter_In in F. destruct F as [_ E].
  unfold emitted in E. apply andb_true_iff in E. destruct E as [E _].
  now apply MatchString_pseudoVersionRe in E.
Qed.

(** [checkGoMod] read off its two stages. *)
Lemma checkGoMod_unfold gomodPath includeIndirect st :
  gomod gomodPath includeIndirect st =
  let '((deps, err), st1) := scan gomodPath includeIndirect st in
  match err with
  | Some e =>
      (([], [], Some (wrapError ("reading " ++ gomodPath ++ ": " ++ Error e) e)),
       st1)
  | None =>
      match deps with
      | [] => (([], [], None), st1)
      | _ :: _ =>
          let '((updates, err'), st2) := check deps st1 in
          match err' with
          | Some e => (([], [], Some e), st2)
          | None => ((deps, updates, None), st2)
          end
      end
  end.
Proof.
  unfold checkGoMod, bind, ret.
  destruct (scan gomodPath includeIndirect st) as [[deps [e|]] st1];
    [reflexivity |].
  destruct deps as [|d deps]; [reflexivity |]. cbn [List.length Nat.eqb].
  destruct (check (d :: deps) st1) as [[updates [e|]] st2];
    reflexivity.
Qed.

Lemma checkGoMod_ok gomodPath includeIndirect st deps ups st' :
  gomod gomodPath includeIndirect st = ((deps, ups, None), st') ->
  (deps = [] /\ ups = [] /\ st' = snd (scan gomodPath includeIndirect st)) \/
  (deps <> [] /\
   fst (scan gomodPath includeIndirect st) = (deps, None) /\
   check deps (snd (scan gomodPath includeIndirect st)) = ((ups, None), st')).
Proof.
  rewrite checkGoMod_unfold.
  destruct (scan gomodPath includeIndirect st) as [[ds [e|]] st1];
    [discriminate |]. cbn [fst snd].
  destruct ds as [|d ds].
  - intros [= <- <- <-]. now left.
  - destruct (check (d :: ds) st1) as [[updates [e|]] st2] eqn:C;
      [discriminate |].
    intros [= <- <- <-]. right. now repeat split.
Qed.

(** X7: [checkForUpdates] returns no error exactly when the resolution of
    every dependency, taken in order, succeeds. *)
Theorem checkForUpdates_succeeds_iff deps st :
  snd (fst (check deps st)) = None <->
  Forall (fun r => snd r = None) (fst (resolveAll (map dep_module deps) st)).
Proof.
  split.
  - intros S. destruct (check deps st) as [[ups err] st'] eqn:Run.
    cbn [fst snd] in S. subst err. unfold checkForUpdates in Run.
    exact (proj1 (checkEach_ok_resolved _ _ _ _ _ Run)).
  - intros F. unfold checkForUpdates.
    pose proof (checkEach_all_resolved Quote TrimSpace World goList
                  json_Unmarshal deps [] st
                  (fst (resolveAll (map dep_module deps) st))
                  (snd (resolveAll (map dep_module deps) st))) as A.
    rewrite A; [reflexivity | | exact F].
    now destruct (resolveAll (map dep_module deps) st).
Qed.


(** X9: when [checkForUpdates] returns no error there are at most as many
    updates as dependencies, and every update names a dependency of the
    input, with its version as the current one and a latest version that is
    not that string. *)
Theorem checkForUpdates_updates_sound deps st ups st' :
  check deps st = ((ups, None), st') ->
  List.length ups <= List.length deps /\
  forall u, In u ups ->
    In (mkDependency (upd_module u) (upd_current u)) deps /\
    upd_latest u <> upd_current u.
Proof. apply checkForUpdates_sound. Qed.

(** X10: when the scanner returns no dependency, because it failed or
    because the manifest has none, [checkGoMod] makes no query at all: it
    returns no dependency, no update and the scanner's error, if any,
    wrapped as "reading <path>: ...". *)
Theorem checkGoMod_nothing_to_check gomodPath includeIndirect st :
  fst (fst (scan gomodPath includeIndirect st)) = [] ->
  gomod gomodPath includeIndirect st
  = (([], [],
      match snd (fst (scan gomodPath includeIndirect st)) with
      | Some e =>
          Some (wrapError ("reading " ++ gomodPath ++ ": " ++ Error e) e)
      | None => None
      end),
     snd (scan gomodPath includeIndirect st)) /\
  queried (snd (gomod gomodPath includeIndirect st)) = queried st.
Proof.
  intros E.
  assert (gomod gomodPath includeIndirect st
          = (([], [],
              match snd (fst (scan gomodPath includeIndirect st)) with
              | Some e =>
                  Some (wrapError ("reading " ++ gomodPath ++ ": " ++ Error e) e)
              | None => None
              end),
             snd (scan gomodPath includeIndirect st))) as R.
  { rewrite checkGoMod_unfold.
    destruct (scan gomodPath includeIndirect st) as [[deps [e|]] st1];
      cbn [fst snd] in *; [reflexivity |]. now subst deps. }
  split; [exact R |]. rewrite R. cbn [snd].
  apply findPseudoVersionedDeps_queried.
Qed.

(** X11: when [checkGoMod] returns no error, every dependency it returns has
    a pseudo-version, and every update it returns names one of those
    dependencies, so its current version is a pseudo-version, with a latest
    version that is a different string. *)
Theorem checkGoMod_reports_pseudo_versions
    gomodPath includeIndirect st deps ups st' :
  gomod gomodPath includeIndirect st = ((deps, ups, None), st') ->
  (forall d, In d deps -> pseudo_version_shape (dep_version d)) /\
  List.length ups <= List.length deps /\
  (forall u, In u ups ->
     In (mkDependency (upd_module u) (upd_current u)) deps /\
     pseudo_version_shape (upd_current u) /\
     upd_latest u <> upd_current u).
Proof.
  intros Run.
  destruct (checkGoMod_ok _ _ _ _ _ _ Run) as [[-> [-> _]] | [_ [S C]]].
  - split; [intros d [] | split; [reflexivity | intros u []]].
  - assert (forall d, In d deps -> pseudo_version_shape (dep_version d)) as P.
    { intros d I.
      destruct (scan gomodPath includeIndirect st) as [[ds err] st1] eqn:Sc.
      cbn [fst] in S. injection S as -> ->.
      exact (scanned_shape _ _ _ _ _ _ _ Sc I). }
    destruct (checkForUpdates_sound _ _ _ _ C) as [L U].
    split; [exact P | split; [exact L |]].
    intros u I. destruct (U u I) as [Id N].
    split; [exact Id | split; [| exact N]].
    exact (P _ Id).
Qed.

(** X12: the flag only adds dependencies.  Without [includeIndirect] the
    scanner returns what it returns with it on the manifest stripped of its
    indirect entries; on one manifest, every dependency found without the
    flag is found with it, and the error and the state after are the same. *)
Theorem includeIndirect_only_adds :
  (forall reqs,
     scanRequires reqs false []
     = scanRequires (filter (fun req => negb (Indirect req)) reqs) true []) /\
  (forall gomodPath st,
     incl (fst (fst (scan gomodPath false st)))
          (fst (fst (scan gomodPath true st))) /\
     snd (fst (scan gomodPath false st)) = snd (fst (scan gomodPath true st)) /\
     snd (scan gomodPath false st) = snd (scan gomodPath true st)).
Proof.
  split.
  - intros reqs. rewrite !scanRequires_filter. cbn [app]. f_equal.
    induction reqs as [|req reqs IH]; [reflexivity |].
    cbn [filter].
    assert (emitted false req = negb (Indirect req) && emitted true req) as ->
      by (unfold emitted;
          destruct (Indirect req),
            (MatchString pseudoVersionRe (Mod_Version req)); reflexivity).
    destruct (negb (Indirect req)); cbn [andb filter]; [| exact IH].
    destruct (emitted true req); now rewrite IH.
  - intros gomodPath st. unfold findPseudoVersionedDeps.
    destruct (os_ReadFile _ _) as [[data [e|]] w]; cbn [fst snd].
    + split; [apply incl_refl | split; reflexivity].
    + destruct (modfile_Parse gomodPath data) as [reqs [e|]]; cbn [fst snd].
      * split; [apply incl_refl | split; reflexivity].
      * split; [| split; reflexivity].
        rewrite !scanRequires_filter. cbn [app]. apply incl_map.
        intros req I. apply filter_In in I. destruct I as [I E].
        apply filter_In. split; [exact I |]. unfold emitted in *.
        apply andb_true_iff in E. destruct E as [-> _].
        cbn [negb andb]. now rewrite andb_false_r.
Qed.

End PipelineExtras.

(** ** The command *)

Section CommandExtras.

Variable Quote : string -> string.
Variable TrimSpace : string -> string.
Variable World : Type.
Variable goList : string -> World -> execOutcome * World.
Variable json_Unmarshal : string -> moduleInfo * option error.
Variable filepath_Clean : string -> string.
Variable os_ReadFile : string -> World -> (string * option error) * World.
Variable modfile_Parse : string -> string -> list Require * option error.

Local Abbreviation query :=
  (queryModuleVersion TrimSpace World goList json_Unmarshal).
Local Abbreviation latest :=
  (getLatestVersion Quote TrimSpace World goList json_Unmarshal).
Local Abbreviation each := (checkEach Quote TrimSpace World goList json_Unmarshal).
Local Abbreviation check :=
  (checkForUpdates Quote TrimSpace World goList json_Unmarshal).
Local Abbreviation resolveAll :=
  (latestVersions Quote TrimSpace World goList json_Unmarshal).
Local Abbreviation scan :=
  (findPseudoVersionedDeps World filepath_Clean os_ReadFile modfile_Parse).
Local Abbreviation gomod :=
  (checkGoMod Quote TrimSpace World goList json_Unmarshal filepath_Clean
     os_ReadFile modfile_Parse).
Local Abbreviation run' :=
  (run Quote TrimSpace World goList json_Unmarshal filepath_Clean os_ReadFile
     modfile_Parse).
Local Abbreviation main' :=
  (main Quote TrimSpace World goList json_Unmarshal filepath_Clean os_ReadFile
     modfile_Parse).

(** The path [main] hands to [run]. *)
Lemma main_unfold includeIndirect args st :
  main' includeIndirect args st =
  let gomodPath := match args with [] => "go.mod" | path :: _ => path end in
  let '((out, (updatesFound, err)), st') := run' gomodPath includeIndirect st in
  match err with
  | Some e => ((out, "Error: " ++ Error e ++ newline, 1), st')
  | None => if updatesFound then ((out, "", 1), st') else ((out, "", 0), st')
  end.
Proof. destruct args; reflexivity. Qed.

Lemma checkGoMod_no_dependency gomodPath includeIndirect st ups st' :
  gomod gomodPath includeIndirect st = (([], ups, None), st') -> ups = [].
Proof.
  intros G.
  destruct (checkGoMod_ok _ _ _ _ _ _ _ _ _ _ _ _ _ _ G)
    as [[_ [-> _]] | [N _]]; [reflexivity | now destruct N].
Qed.

(** The results of [run] read off those of [checkGoMod]. *)
Lemma run_result gomodPath includeIndirect st :
  snd (run' gomodPath includeIndirect st)
  = snd (gomod gomodPath includeIndirect st) /\
  snd (snd (fst (run' gomodPath includeIndirect st)))
  = snd (fst (gomod gomodPath includeIndirect st)) /\
  fst (snd (fst (run' gomodPath includeIndirect st)))
  = match snd (fst (gomod gomodPath includeIndirect st)) with
    | Some _ => false
    | None =>
        negb (Nat.eqb
                (List.length
                   (snd (fst (fst (gomod gomodPath includeIndirect st))))) 0)
    end /\
  (snd (fst (gomod gomodPath includeIndirect st)) <> None ->
   fst (fst (run' gomodPath includeIndirect st)) = "").
Proof.
  unfold run.
  destruct (gomod gomodPath includeIndirect st) as [[[deps ups] [e|]] st']
    eqn:G; cbn [fst snd].
  - now repeat split.
  - destruct deps as [|d deps]; cbn [List.length Nat.eqb].
    + rewrite (checkGoMod_no_dependency _ _ _ _ _ G).
      repeat split; try reflexivity. now intros [].
    + destruct ups as [|u ups]; cbn [List.length Nat.ltb Nat.leb Nat.eqb negb];
        repeat split; try reflexivity; now intros [].
Qed.

(** X13: [run] leaves the state as [checkGoMod] left it and returns its
    error; it reports updates found exactly when [checkGoMod] returned no
    error and at least one update; and when there is an error it has written
    nothing to the standard output. *)
Theorem run_updates_found gomodPath includeIndirect st :
  let r :=
    run Quote TrimSpace World goList json_Unmarshal filepath_Clean os_ReadFile
      modfile_Parse gomodPath includeIndirect st in
  let g :=
    checkGoMod Quote TrimSpace World goList json_Unmarshal filepath_Clean
      os_ReadFile modfile_Parse gomodPath includeIndirect st in
  snd r = snd g /\
  snd (snd (fst r)) = snd (fst g) /\
  fst (snd (fst r))
  = match snd (fst g) with
    | Some _ => false
    | None => negb (Nat.eqb (List.length (snd (fst (fst g)))) 0)
    end /\
  (snd (fst g) <> None -> fst (fst r) = "").
Proof. apply run_result. Qed.


(** X15: when the manifest cannot be read, or cannot be parsed, [main] makes
    no query, writes nothing to the standard output, exits with status 1 and
    writes "Error: reading <path>: reading file: ..." or
    "Error: reading <path>: parsing go.mod: ..." to the standard error;
    positional arguments after the first are ignored. *)
Theorem main_manifest_errors includeIndirect gomodPath rest st data w :
  (forall e,
     os_ReadFile (filepath_Clean gomodPath) (world st) = ((data, Some e), w) ->
     main' includeIndirect (gomodPath :: rest) st
     = (("",
         "Error: reading " ++ gomodPath ++ ": reading file: " ++ Error e
         ++ newline, 1),
        mkState w (queried st))) /\
  (forall reqs e,
     os_ReadFile (filepath_Clean gomodPath) (world st) = ((data, None), w) ->
     modfile_Parse gomodPath data = (reqs, Some e) ->
     main' includeIndirect (gomodPath :: rest) st
     = (("",
         "Error: reading " ++ gomodPath ++ ": parsing go.mod: " ++ Error e
         ++ newline, 1),
        mkState w (queried st))).
Proof.
  split.
  - intros e R. rewrite main_unfold. cbv zeta. unfold run.
    rewrite checkGoMod_unfold. unfold findPseudoVersionedDeps. rewrite R.
    cbn [Error]. now rewrite !append_assoc.
  - intros reqs e R P. rewrite main_unfold. cbv zeta. unfold run.
    rewrite checkGoMod_unfold. unfold findPseudoVersionedDeps. rewrite R, P.
    cbn [Error]. now rewrite !append_assoc.
Qed.

(** X16: when the scanner finds dependencies and the resolution of one of
    them fails after the earlier ones resolved, [main] writes nothing to the
    standard output, not even the dependencies found, writes
    "Error: checking <module>: ..." to the standard error and exits with
    status 1, the later dependencies never queried. *)
Theorem main_resolution_error
    includeIndirect gomodPath rest st pre dep post st1 ups st2 v e st3 :
  scan gomodPath includeIndirect st = (((pre ++ dep :: post)%list, None), st1) ->
  check pre st1 = ((ups, None), st2) ->
  latest (dep_module dep) st2 = ((v, Some e), st3) ->
  main' includeIndirect (gomodPath :: rest) st
  = (("", "Error: checking " ++ dep_module dep ++ ": " ++ Error e ++ newline, 1),
     st3).
Proof.
  intros S Pre Fail. rewrite main_unfold. cbv zeta. unfold run.
  rewrite checkGoMod_unfold, S.
  assert (check (pre ++ dep :: post)%list st1
          = (([], Some (wrapError
                          ("checking " ++ dep_module dep ++ ": " ++ Error e) e)),
             st3)) as C.
  { unfold checkForUpdates in *. rewrite checkEach_app, Pre.
    now rewrite checkEach_cons, Fail. }
  destruct pre as [|d pre]; cbn [app] in C |- *; rewrite C; cbn [Error];
    now rewrite !append_assoc.
Qed.

(** X17: when the manifest is read and parsed and every dependency the
    scanner keeps resolves, [main] writes nothing to the standard error and
    exits with status 1 exactly when some kept dependency has a version other
    than the one resolved; the standard output names the dependencies in the
    order of the manifest and then the updates, or says there is none. *)
Theorem main_end_to_end
    includeIndirect gomodPath rest st data w reqs rs st' :
  os_ReadFile (filepath_Clean gomodPath) (world st) = ((data, None), w) ->
  modfile_Parse gomodPath data = (reqs, None) ->
  let deps := map asDependency (filter (emitted includeIndirect) reqs) in
  resolveAll (map dep_module deps) (mkState w (queried st)) = (rs, st') ->
  Forall (fun r => snd r = None) rs ->
  let updates := map asUpdate (filter differs (combine deps (map fst rs))) in
  main' includeIndirect (gomodPath :: rest) st
  = ((match deps with
      | [] => Println "No pseudo-versioned dependencies found in go.mod."
      | _ :: _ =>
          Println "Pseudo-versioned dependencies in go.mod:"
          ++ printEach dependencyLine deps
          ++ Println ""
          ++ match updates with
             | [] => Println "No updates found for pseudo-versioned dependencies."
             | _ :: _ =>
                 Println "Updates available:" ++ printEach updateLine updates
             end
      end,
      "",
      match updates with [] => 0 | _ :: _ => 1 end),
     st').
Proof.
  intros R P deps Res F updates.
  assert (scan gomodPath includeIndirect st
          = ((deps, None), mkState w (queried st))) as S.
  { unfold findPseudoVersionedDeps. rewrite R, P.
    now rewrite scanRequires_filter. }
  rewrite main_unfold. cbv zeta. unfold run. rewrite checkGoMod_unfold, S.
  subst updates. clear S. clearbody deps.
  destruct deps as [|d deps].
  - cbn [map] in Res. injection Res as <- <-. reflexivity.
  - assert (check (d :: deps) (mkState w (queried st))
            = ((map asUpdate
                  (filter differs (combine (d :: deps) (map fst rs))),
                None), st')) as C.
    { unfold checkForUpdates.
      now rewrite (checkEach_all_resolved Quote TrimSpace World goList
                     json_Unmarshal (d :: deps) [] _ rs st' Res F). }
    rewrite C. cbn [List.length Nat.eqb].
    destruct (map asUpdate (filter differs (combine (d :: deps) (map fst rs))))
      as [|u us]; cbn [List.length Nat.ltb Nat.leb];
      now rewrite <- !append_assoc.
Qed.

(** X18: along the whole call chain an error comes with the zero value:
    the empty string from [extractTimestamp], [newerVersion],
    [queryModuleVersion] and [getLatestVersion], the nil list from
    [findPseudoVersionedDeps] and [checkForUpdates], nil lists from
    [checkGoMod], and no output and [false] from [run]. *)
Theorem errors_come_with_zero_values :
  (forall s,
     snd (extractTimestamp Quote s) = None \/
     fst (extractTimestamp Quote s) = "") /\
  (forall a b,
     snd (newerVersion Quote a b) = None \/ fst (newerVersion Quote a b) = "") /\
  (forall modulePath branch st,
     snd (fst (query modulePath branch st)) = None \/
     fst (fst (query modulePath branch st)) = "") /\
  (forall modulePath st,
     snd (fst (latest modulePath st)) = None \/
     fst (fst (latest modulePath st)) = "") /\
  (forall gomodPath includeIndirect st,
     snd (fst (scan gomodPath includeIndirect st)) = None \/
     fst (fst (scan gomodPath includeIndirect st)) = []) /\
  (forall deps st,
     snd (fst (check deps st)) = None \/ fst (fst (check deps st)) = []) /\
  (forall gomodPath includeIndirect st,
     snd (fst (gomod gomodPath includeIndirect st)) = None \/
     fst (fst (gomod gomodPath includeIndirect st)) = ([], [])) /\
  (forall gomodPath includeIndirect st,
     snd (snd (fst (run' gomodPath includeIndirect st))) = None \/
     (fst (fst (run' gomodPath includeIndirect st)) = "" /\
      fst (snd (fst (run' gomodPath includeIndirect st))) = false)).
Proof.
  repeat split.
  - intros s. destruct (extractTimestamp Quote s) as [v [e|]] eqn:E;
      [right | now left].
    now apply extractTimestamp_error in E.
  - intros a b. destruct (newerVersion Quote a b) as [v [e|]] eqn:E;
      [right | now left].
    now apply newerVersion_error in E.
  - intros modulePath branch st.
    destruct (query modulePath branch st) as [[v [e|]] st'] eqn:E;
      [right | now left].
    now apply queryModuleVersion_error in E.
  - intros modulePath st.
    destruct (latest modulePath st) as [[v [e|]] st'] eqn:E;
      [right | now left].
    now apply getLatestVersion_error in E.
  - intros gomodPath includeIndirect st.
    destruct (scan gomodPath includeIndirect st) as [[deps [e|]] st'] eqn:E;
      [right | now left].
    now apply findPseudoVersionedDeps_error in E.
  - intros deps st.
    destruct (check deps st) as [[ups [e|]] st'] eqn:E; [right | now left].
    now apply checkEach_error_nil in E.
  - intros gomodPath includeIndirect st. rewrite checkGoMod_unfold.
    destruct (scan gomodPath includeIndirect st) as [[deps [e|]] st1];
      [now right |].
    destruct deps as [|d deps]; [now left |].
    destruct (check (d :: deps) st1) as [[ups [e|]] st2];
      [now right | now left].
  - intros gomodPath includeIndirect st.
    destruct (run_result gomodPath includeIndirect st) as [_ [E [F Z]]].
    rewrite E, F.
    destruct (snd (fst (gomod gomodPath includeIndirect st))) as [e|];
      [right | now left].
    split; [apply Z; discriminate | reflexivity].
Qed.

End CommandExtras.

(** ** Runs in the concrete environment *)

Lemma getLatestVersion_returns_resolved_witness :
  snd (Demo.getLatestVersion "go4.org/netipx"
         (Demo.start [("go4.org/netipx@master",
                       Output "v0.0.0-20231129151722-fdeea329fbba")]))
  = snd (Demo.queryModuleVersion "go4.org/netipx" "master"
           (snd (Demo.queryModuleVersion "go4.org/netipx" "main"
                   (Demo.start [("go4.org/netipx@master",
                                 Output "v0.0.0-20231129151722-fdeea329fbba")])))) /\
  (fst (Demo.queryModuleVersion "go4.org/netipx" "main"
          (Demo.start [("go4.org/netipx@master",
                        Output "v0.0.0-20231129151722-fdeea329fbba")]))
   = ("v0.0.0-20231129151722-fdeea329fbba", None) \/
   fst (Demo.queryModuleVersion "go4.org/netipx" "master"
          (snd (Demo.queryModuleVersion "go4.org/netipx" "main"
                  (Demo.start [("go4.org/netipx@master",
                                Output "v0.0.0-20231129151722-fdeea329fbba")]))))
   = ("v0.0.0-20231129151722-fdeea329fbba", None)).
Proof.
  exact (getLatestVersion_returns_resolved Demo.Quote Demo.TrimSpace Demo.World
           Demo.goList Demo.json_Unmarshal "go4.org/netipx"
           (Demo.start [("go4.org/netipx@master",
                         Output "v0.0.0-20231129151722-fdeea329fbba")])
           "v0.0.0-20231129151722-fdeea329fbba" _ eq_refl).
Defined.

Lemma getLatestVersion_error_kinds_witness :
  let st :=
    Demo.start
      [("example.com/m@main", ExitError "fatal: unable to access the remote")] in
  let e := errorString "fatal: unable to access the remote" in
  let st' := snd (Demo.getLatestVersion "example.com/m" st) in
  let r1 := Demo.queryModuleVersion "example.com/m" "main" st in
  let r2 := Demo.queryModuleVersion "example.com/m" "master" (snd r1) in
  (snd (fst r1) = Some e /\ st' = snd r1 /\
   Bytes.Contains (Error e) "unknown revision" = false) \/
  (snd (fst r2) = Some e /\ st' = snd r2 /\
   Bytes.Contains (Error e) "unknown revision" = false) \/
  (e = errors_New "neither main nor master branch found" /\ st' = snd r2 /\
   (exists e1 e2, snd (fst r1) = Some e1 /\ snd (fst r2) = Some e2 /\
      Bytes.Contains (Error e1) "unknown revision" = true /\
      Bytes.Contains (Error e2) "unknown revision" = true)) \/
  (snd (fst r1) = None /\ snd (fst r2) = None /\ st' = snd r2 /\
   ((e = noTimestampError Demo.Quote (fst (fst r1)) /\
     ~ has_timestamp (fst (fst r1))) \/
    (e = noTimestampError Demo.Quote (fst (fst r2)) /\
     ~ has_timestamp (fst (fst r2))))).
Proof.
  exact (getLatestVersion_error_kinds Demo.Quote Demo.TrimSpace Demo.World
           Demo.goList Demo.json_Unmarshal "example.com/m"
           (Demo.start
              [("example.com/m@main",
                ExitError "fatal: unable to access the remote")])
           "" (errorString "fatal: unable to access the remote") _ eq_refl).
Defined.

Lemma checkForUpdates_updates_sound_witness :
  let deps :=
    [mkDependency "example.com/a" "v0.0.0-20231101000000-abc123abc123";
     mkDependency "example.com/b" "v0.0.0-20231101000000-abc123abc123"] in
  let ups :=
    [mkUpdate "example.com/b" "v0.0.0-20231101000000-abc123abc123"
       "v0.0.0-20231201000000-def456def456"] in
  List.length ups <= List.length deps /\
  forall u, In u ups ->
    In (mkDependency (upd_module u) (upd_current u)) deps /\
    upd_latest u <> upd_current u.
Proof.
  exact (checkForUpdates_updates_sound Demo.Quote Demo.TrimSpace Demo.World
           Demo.goList Demo.json_Unmarshal
           [mkDependency "example.com/a" "v0.0.0-20231101000000-abc123abc123";
            mkDependency "example.com/b" "v0.0.0-20231101000000-abc123abc123"]
           (Demo.start
              [("example.com/a@main",
                Output "v0.0.0-20231101000000-abc123abc123");
               ("example.com/b@main",
                Output "v0.0.0-20231201000000-def456def456")])
           [mkUpdate "example.com/b" "v0.0.0-20231101000000-abc123abc123"
              "v0.0.0-20231201000000-def456def456"]
           _ eq_refl).
Defined.

Lemma checkGoMod_nothing_to_check_witness :
  let requires :=
    [mkRequire "github.com/oschwald/maxminddb-golang/v2" "v2.1.1" false;
     mkRequire "github.com/example/indirect"
       "v0.0.0-20231129151722-abcdef123456" true] in
  let st :=
    Demo.start
      [("github.com/example/indirect@main",
        Output "v0.0.0-20231201000000-def456def456")] in
  Demo.checkGoMod requires "go.mod" false st = (([], [], None), st) /\
  queried (snd (Demo.checkGoMod requires "go.mod" false st)) = [].
Proof.
  exact (checkGoMod_nothing_to_check Demo.Quote Demo.TrimSpace Demo.World
           Demo.goList Demo.json_Unmarshal Demo.filepath_Clean Demo.os_ReadFile
           (Demo.modfile_Parse
              [mkRequire "github.com/oschwald/maxminddb-golang/v2" "v2.1.1" false;
               mkRequire "github.com/example/indirect"
                 "v0.0.0-20231129151722-abcdef123456" true])
           "go.mod" false
           (Demo.start
              [("github.com/example/indirect@main",
                Output "v0.0.0-20231201000000-def456def456")])
           eq_refl).
Defined.

Lemma checkGoMod_reports_pseudo_versions_witness :
  let deps :=
    [mkDependency "github.com/maxmind/mmdbwriter"
       "v1.1.1-0.20251215205057-2f3252140e00";
     mkDependency "go4.org/netipx" "v0.0.0-20231129151722-fdeea329fbba"] in
  let ups :=
    [mkUpdate "go4.org/netipx" "v0.0.0-20231129151722-fdeea329fbba"
       "v0.0.0-20240501000000-0123456789ab"] in
  (forall d, In d deps -> pseudo_version_shape (dep_version d)) /\
  List.length ups <= List.length deps /\
  (forall u, In u ups ->
     In (mkDependency (upd_module u) (upd_current u)) deps /\
     pseudo_version_shape (upd_current u) /\
     upd_latest u <> upd_current u).
Proof.
  exact (checkGoMod_reports_pseudo_versions Demo.Quote Demo.TrimSpace Demo.World
           Demo.goList Demo.json_Unmarshal Demo.filepath_Clean Demo.os_ReadFile
           (Demo.modfile_Parse Demo.requires) "go.mod" false
           (Demo.start
              [("github.com/maxmind/mmdbwriter@main",
                Output "v1.1.1-0.20251215205057-2f3252140e00");
               ("go4.org/netipx@master",
                Output "v0.0.0-20240501000000-0123456789ab")])
           [mkDependency "github.com/maxmind/mmdbwriter"
              "v1.1.1-0.20251215205057-2f3252140e00";
            mkDependency "go4.org/netipx" "v0.0.0-20231129151722-fdeea329fbba"]
           [mkUpdate "go4.org/netipx" "v0.0.0-20231129151722-fdeea329fbba"
              "v0.0.0-20240501000000-0123456789ab"]
           _ eq_refl).
Defined.

Lemma main_manifest_errors_witness :
  DemoCommand.main_missing false ["deps/go.mod"; "ignored"] (Demo.start [])
  = (("",
      "Error: reading deps/go.mod: reading file: "
      ++ "open deps/go.mod: no such file or directory" ++ newline,
      1),
     Demo.start []).
Proof.
  exact (proj1 (main_manifest_errors Demo.Quote Demo.TrimSpace Demo.World
                  Demo.goList Demo.json_Unmarshal Demo.filepath_Clean
                  DemoCommand.os_ReadFile_missing (Demo.modfile_Parse [])
                  false "deps/go.mod" ["ignored"] (Demo.start []) "" [])
           (errorString "open deps/go.mod: no such file or directory")
           eq_refl).
Defined.

Lemma main_resolution_error_witness :
  fst (DemoCommand.main Demo.requires false ["go.mod"]
         (Demo.start
            [("github.com/maxmind/mmdbwriter@main",
              Output "v1.1.1-0.20260101000000-0123456789ab");
             ("go4.org/netipx@main",
              ExitError "fatal: unable to access the remote")]))
  = ("",
     "Error: checking go4.org/netipx: fatal: unable to access the remote"
     ++ newline,
     1).
Proof.
  exact (f_equal fst
           (main_resolution_error Demo.Quote Demo.TrimSpace Demo.World
              Demo.goList Demo.json_Unmarshal Demo.filepath_Clean
              Demo.os_ReadFile (Demo.modfile_Parse Demo.requires)
              false "go.mod" []
              (Demo.start
                 [("github.com/maxmind/mmdbwriter@main",
                   Output "v1.1.1-0.20260101000000-0123456789ab");
                  ("go4.org/netipx@main",
                   ExitError "fatal: unable to access the remote")])
              [mkDependency "github.com/maxmind/mmdbwriter"
                 "v1.1.1-0.20251215205057-2f3252140e00"]
              (mkDependency "go4.org/netipx"
                 "v0.0.0-20231129151722-fdeea329fbba")
              []
              _ _ _ "" (errorString "fatal: unable to access the remote") _
              eq_refl eq_refl eq_refl)).
Defined.

Lemma main_end_to_end_witness :
  fst (DemoCommand.main
         [mkRequire "github.com/example/module"
            "v0.0.0-20231101000000-abc123abc123" false]
         false ["go.mod"]
         (Demo.start
            [("github.com/example/module@main",
              Output "v0.0.0-20231201000000-def456def456")]))
  = (Println "Pseudo-versioned dependencies in go.mod:"
     ++ Println "  github.com/example/module"
     ++ Println ""
     ++ Println "Updates available:"
     ++ Println ("  github.com/example/module: "
                 ++ "v0.0.0-20231101000000-abc123abc123 -> "
                 ++ "v0.0.0-20231201000000-def456def456"),
     "",
     1).
Proof.
  exact (f_equal fst
           (main_end_to_end Demo.Quote Demo.TrimSpace Demo.World
              Demo.goList Demo.json_Unmarshal Demo.filepath_Clean
              Demo.os_ReadFile
              (Demo.modfile_Parse
                 [mkRequire "github.com/example/module"
                    "v0.0.0-20231101000000-abc123abc123" false])
              false "go.mod" []
              (Demo.start
                 [("github.com/example/module@main",
                   Output "v0.0.0-20231201000000-def456def456")])
              "module test"
              [("github.com/example/module@main",
                Output "v0.0.0-20231201000000-def456def456")]
              [mkRequire "github.com/example/module"
                 "v0.0.0-20231101000000-abc123abc123" false]
              [("v0.0.0-20231201000000-def456def456", None)]
              _ eq_refl eq_refl eq_refl
              ltac:(repeat constructor))).
Defined.
